(** * UniBridge, NER adapter wrapper: [NER/model.py]

    A shallow embedding of [NERAdapterPreTrainedModel] and [NERAdapterModel]
    and the properties of their constructor, [forward], [save_pretrained]
    and [dummy_inputs].

    The module under study is glue code around an adapter library.  The
    library itself is not part of the repository, so its objects are kept
    symbolic: the underlying model [self.model] is represented by the class
    it was built from, the way it was built, and the sequence of library
    methods that were invoked on it, in program order.  What the wrapper
    asks of the library is then a statement about that sequence. *)

From Stdlib Require Import ZArith String List Bool Lia.
From stdpp Require Import base option strings list gmap pretty.

Local Open Scope Z_scope.
Local Open Scope string_scope.

(** ** Python runtime: exceptions and the state-and-exception monad *)

Module Py.

(** The exceptions the modelled statements can raise. *)
Inductive exn : Type :=
| AssertionError                      (* a failed [assert] *)
| UnboundLocalError (name : string)   (* a local read before assignment *)
| AttributeError (attr : string)      (* [self.attr] read before it is set *)
| KeyError (key : string)             (* a missing mapping key *)
| TypeError (msg : string)            (* e.g. a tuple indexed by a string *)
| FileExistsError (path : string)     (* [os.makedirs] on an existing path *)
| LibraryError (msg : string).        (* anything the wrapped library raises *)

Inductive result (A : Type) : Type :=
| Ok (a : A)
| Raise (e : exn).
Arguments Ok {A} a.
Arguments Raise {A} e.

(** A statement run in state [S]: it returns a value and the new state, or
    propagates an exception. *)
Definition M (S A : Type) : Type := S -> result (A * S).

#[global] Instance M_ret {S} : MRet (M S) :=
  fun A (a : A) (s : S) => Ok (a, s).

#[global] Instance M_bind {S} : MBind (M S) :=
  fun A B (k : A -> M S B) (m : M S A) (s : S) =>
    match m s with
    | Ok (a, s') => k a s'
    | Raise e => Raise e
    end.

Definition raise {S A} (e : exn) : M S A := fun _ => Raise e.

(** [bool(s)] for a [str]: only the empty string is falsy. *)
Definition truthy_str (s : string) : bool := negb (String.eqb s EmptyString).

(** [assert e] where [e] evaluates to the string [s]. *)
Definition assert_str {S} (s : string) : M S unit :=
  if truthy_str s then mret tt else raise AssertionError.

(** [x in [a, b, ...]] on strings: the first [==] hit decides. *)
Definition str_in (x : string) (l : list string) : bool :=
  existsb (String.eqb x) l.

(** Reading a local variable that some path may have left unassigned. *)
Definition local {S A} (name : string) (v : option A) : M S A :=
  match v with
  | Some a => mret a
  | None => raise (UnboundLocalError name)
  end.

End Py.
Import Py.

(** ** Configuration record

    [NERAdapterConfig] is declared in [configuration.py]; the fields below
    are exactly the attributes that [model.py] reads from it. *)

Record NERAdapterConfig : Type := {
  model : string;              (* model family tag *)
  pretrained_ck : string;      (* base checkpoint, or the empty string *)
  lang_adapter_ckpt : string;  (* language adapter checkpoint, or empty *)
  task_adapter_ckpt : string;  (* task adapter checkpoint, or empty *)
  lang : string;
  num_labels : Z;
  use_return_dict : bool;
  pad_token_id : Z
}.

(** ** The wrapped library, symbolically *)

(** The two base classes imported from the library. *)
Inductive basemodel : Type :=
| BertAdapterModel
| XLMRobertaAdapterModel.

(** [AdapterConfig.load(name, non_linearity=.., reduction_factor=..,
    leave_out=..)]. *)
Record adapter_config : Type := AdapterConfig_load {
  ac_name : string;
  ac_non_linearity : string;
  ac_reduction_factor : Z;
  ac_leave_out : list Z
}.

(** Methods invoked on [self.model] (and on [self.model.config]), with the
    arguments the wrapper passes. *)
Inductive lib_call : Type :=
| load_adapter (path : string) (load_as : string) (leave_out : list Z)
| add_adapter (name : string) (config : adapter_config)
| add_tagging_head (name : string) (num_labels : Z)
| set_active_adapters (names : list string)
| train_adapter (names : list string)
| config_save_pretrained (dir : string)
| save_adapter (dir : string) (name : string) (with_head : bool).

(** How the base model object came to be. *)
Inductive origin : Type :=
| from_config (config : NERAdapterConfig)     (* [basemodel_class(config)] *)
| from_pretrained (ckpt : string).            (* [basemodel_class.from_pretrained(ck)] *)

Record base_model : Type := {
  base_class : basemodel;
  base_origin : origin;
  history : list lib_call       (* oldest call first *)
}.

(** ** Interpreter state: the file system and the object [self] *)

Record world : Type := {
  fs : gset string;                         (* paths that exist *)
  self_num_labels : option Z;
  self_model : option base_model;
  self_config : option NERAdapterConfig
}.

Definition set_num_labels (n : Z) : M world unit := fun w =>
  Ok (tt, {| fs := fs w; self_num_labels := Some n;
             self_model := self_model w; self_config := self_config w |}).

Definition set_model (m : base_model) : M world unit := fun w =>
  Ok (tt, {| fs := fs w; self_num_labels := self_num_labels w;
             self_model := Some m; self_config := self_config w |}).

Definition set_config (c : NERAdapterConfig) : M world unit := fun w =>
  Ok (tt, {| fs := fs w; self_num_labels := self_num_labels w;
             self_model := self_model w; self_config := Some c |}).

Definition get_model : M world base_model := fun w =>
  match self_model w with
  | Some m => Ok (m, w)
  | None => Raise (AttributeError "model")
  end.

Definition get_config : M world NERAdapterConfig := fun w =>
  match self_config w with
  | Some c => Ok (c, w)
  | None => Raise (AttributeError "config")
  end.

(** [self.model.<method>(...)]: the call is appended to the history of the
    object bound to [self.model]. *)
Definition record_call (c : lib_call) (m : base_model) : base_model :=
  {| base_class := base_class m; base_origin := base_origin m;
     history := (history m ++ [c])%list |}.

Definition model_do (c : lib_call) : M world unit :=
  m ← get_model; set_model (record_call c m).

(** ** [NERAdapterModel.__init__] *)

(** [f"{config.lang}_ner"] *)
Definition ner_name (config : NERAdapterConfig) : string :=
  lang config +:+ "_ner".

Definition model_tag_message (config : NERAdapterConfig) : string :=
  "parameter `model` for NERAdapterModel must be either ['mbert', 'xlm-r'], "
  +:+ model config +:+ " does not belong to that.".

Definition adapter_mode_message (adapter_mode : Z) : string :=
  "Unknown adapter mode of " +:+ pretty adapter_mode.

(** Lines 51-56: the value of the local [basemodel_class] afterwards;
    [None] stands for a local that was never assigned. *)
Definition select_basemodel_class (config : NERAdapterConfig)
  : M world (option basemodel) :=
  if str_in (model config) ["mbert"; "mbert_cased"] then
    mret (Some BertAdapterModel)
  else if String.eqb (model config) "xlm-r" then
    mret (Some XLMRobertaAdapterModel)
  else
    assert_str (model_tag_message config);; mret None.

(** Lines 58-63. *)
Definition build_base (config : NERAdapterConfig)
    (basemodel_class : option basemodel) : M world unit :=
  if String.eqb (pretrained_ck config) EmptyString then
    cls ← local "basemodel_class" basemodel_class;
    set_model {| base_class := cls; base_origin := from_config config;
                 history := [] |}
  else
    cls ← local "basemodel_class" basemodel_class;
    set_model {| base_class := cls;
                 base_origin := from_pretrained (pretrained_ck config);
                 history := [] |}.

(** Lines 65-71: returns the value of the local [adapter_mode]. *)
Definition language_adapter (config : NERAdapterConfig) : M world Z :=
  let adapter_mode := 0 in
  if String.eqb (lang_adapter_ckpt config) EmptyString then
    let adapter_mode := 1 in
    mret adapter_mode
  else
    model_do (load_adapter (lang_adapter_ckpt config) (lang config) [11]);;
    let adapter_mode := 2 in
    mret adapter_mode.

(** Lines 73-81. *)
Definition task_adapter (config : NERAdapterConfig) : M world unit :=
  if String.eqb (task_adapter_ckpt config) EmptyString then
    let task_config := AdapterConfig_load "pfeiffer" "gelu" 16 [11] in
    model_do (add_adapter (ner_name config) task_config);;
    model_do (add_tagging_head (ner_name config) (num_labels config))
  else
    model_do (load_adapter (task_adapter_ckpt config) (ner_name config) [11]).

(** Lines 83-88. *)
Definition activate (config : NERAdapterConfig) (adapter_mode : Z)
  : M world unit :=
  if Z.eqb adapter_mode 1 then
    model_do (set_active_adapters [ner_name config])
  else if Z.eqb adapter_mode 2 then
    model_do (set_active_adapters [lang config; ner_name config])
  else
    assert_str (adapter_mode_message adapter_mode).

(** The constructor.  [super().__init__(config)] runs the library's own
    constructor and is left out; the statements of [__init__] follow in
    program order. *)
Definition init (config : NERAdapterConfig) : M world unit :=
  set_num_labels (num_labels config);;
  basemodel_class ← select_basemodel_class config;
  build_base config basemodel_class;;
  adapter_mode ← language_adapter config;
  task_adapter config;;
  activate config adapter_mode;;
  model_do (train_adapter [ner_name config]);;
  set_config config.

(** ** [NERAdapterModel.save_pretrained] *)

Definition os_path_exists (p : string) : M world bool := fun w =>
  Ok (bool_decide (p ∈ fs w), w).

(** [os.makedirs(p)] with the default [exist_ok=False]; only the leaf
    directory is tracked. *)
Definition os_makedirs (p : string) : M world unit := fun w =>
  if bool_decide (p ∈ fs w) then Raise (FileExistsError p)
  else Ok (tt, {| fs := {[p]} ∪ fs w; self_num_labels := self_num_labels w;
                  self_model := self_model w; self_config := self_config w |}).

(** [f"{path}/{self.config.lang}"] *)
Definition lang_dir (path : string) : M world string :=
  config ← get_config; mret (path +:+ "/" +:+ lang config).

(** [f"{self.config.lang}_ner"] *)
Definition self_ner_name : M world string :=
  config ← get_config; mret (ner_name config).

Definition save_pretrained (path : string) : M world unit :=
  d ← lang_dir path;
  present ← os_path_exists d;
  (if negb present then d ← lang_dir path; os_makedirs d else mret tt);;
  d ← lang_dir path;
  model_do (config_save_pretrained d);;
  d ← lang_dir path;
  name ← self_ner_name;
  model_do (save_adapter d name true).

(** ** [NERAdapterModel.forward] *)

(** Values that flow through [forward]; tensors are the library's and stay
    abstract. *)
Inductive py_val (Tensor : Type) : Type :=
| PyNone
| PyBool (b : bool)
| PyTensor (t : Tensor).
Arguments PyNone {Tensor}.
Arguments PyBool {Tensor} b.
Arguments PyTensor {Tensor} t.

(** The parameters of [forward]; an omitted one is [PyNone]. *)
Record forward_args (Tensor : Type) : Type := {
  input_ids : py_val Tensor;
  attention_mask : py_val Tensor;
  token_type_ids : py_val Tensor;
  position_ids : py_val Tensor;
  head_mask : py_val Tensor;
  inputs_embeds : py_val Tensor;
  labels : py_val Tensor;
  output_attentions : py_val Tensor;
  output_hidden_states : py_val Tensor;
  return_dict : py_val Tensor
}.
Arguments input_ids {Tensor} _.
Arguments attention_mask {Tensor} _.
Arguments token_type_ids {Tensor} _.
Arguments position_ids {Tensor} _.
Arguments head_mask {Tensor} _.
Arguments inputs_embeds {Tensor} _.
Arguments labels {Tensor} _.
Arguments output_attentions {Tensor} _.
Arguments output_hidden_states {Tensor} _.
Arguments return_dict {Tensor} _.

(** The argument list of one call [self.model(...)]. *)
Record model_args (Tensor : Type) : Type := {
  positional : list (py_val Tensor);
  keywords : list (string * py_val Tensor)
}.
Arguments positional {Tensor} _.
Arguments keywords {Tensor} _.

(** What the underlying model hands back: a dict-like [ModelOutput], or a
    plain tuple. *)
Inductive model_output (Tensor : Type) : Type :=
| ModelOutput (fields : gmap string (py_val Tensor))
| TupleOutput (items : list (py_val Tensor)).
Arguments ModelOutput {Tensor} fields.
Arguments TupleOutput {Tensor} items.

Section Forward.

Context {Tensor : Type}.

(** The library's forward computation of the model object it is invoked
    on. *)
Variable call_model :
  base_model -> model_args Tensor -> result (model_output Tensor).

Definition invoke (m : base_model) (a : model_args Tensor)
  : M world (model_output Tensor) := fun w =>
  match call_model m a with
  | Ok out => Ok (out, w)
  | Raise e => Raise e
  end.

(** [outputs[key]] *)
Definition getitem (outputs : model_output Tensor) (key : string)
  : M world (py_val Tensor) :=
  match outputs with
  | ModelOutput fields =>
      match fields !! key with
      | Some v => mret v
      | None => raise (KeyError key)
      end
  | TupleOutput _ =>
      raise (TypeError "tuple indices must be integers or slices, not str")
  end.

(** Line 115. *)
Definition resolve_return_dict (rd : py_val Tensor)
  : M world (py_val Tensor) :=
  match rd with
  | PyNone => config ← get_config; mret (PyBool (use_return_dict config))
  | _ => mret rd
  end.

(** Lines 117-127: the arguments handed to [self.model]. *)
Definition delegated_args (a : forward_args Tensor) (rd : py_val Tensor)
  : model_args Tensor :=
  {| positional := [input_ids a];
     keywords :=
       [("attention_mask", attention_mask a);
        ("token_type_ids", token_type_ids a);
        ("position_ids", position_ids a);
        ("head_mask", head_mask a);
        ("inputs_embeds", inputs_embeds a);
        ("output_attentions", output_attentions a);
        ("output_hidden_states", output_hidden_states a);
        ("return_dict", rd)] |}.

Definition forward (a : forward_args Tensor) : M world (py_val Tensor) :=
  rd ← resolve_return_dict (return_dict a);
  m ← get_model;
  outputs ← invoke m (delegated_args a rd);
  getitem outputs "logits".

End Forward.

(** ** [NERAdapterPreTrainedModel.dummy_inputs] *)

Module Torch.

(** Two-dimensional tensors as nested rows.  Integer elements are kept as
    mathematical integers: the values involved are token ids. *)
Inductive tensor : Type :=
| LongTensor (rows : list (list Z))
| BoolTensor (rows : list (list bool)).

(** Tensors are objects: a value of type [ref] names one, and the store
    holds them in allocation order. *)
Definition ref : Type := nat.
Definition store : Type := list tensor.

Definition alloc (t : tensor) : M store ref := fun st =>
  Ok (List.length st, (st ++ [t])%list).

(** [torch.tensor(rows, device=...)] *)
Definition torch_tensor (rows : list (list Z)) : M store ref :=
  alloc (LongTensor rows).

(** Elementwise [x != other]. *)
Definition ne_rows (rows : list (list Z)) (other : Z) : list (list bool) :=
  (fun row : list Z => (fun x => negb (Z.eqb x other)) <$> row) <$> rows.

(** [t.ne(other)]: a new tensor. *)
Definition ne (t : ref) (other : Z) : M store ref := fun st =>
  match st !! t with
  | Some (LongTensor rows) => alloc (BoolTensor (ne_rows rows other)) st
  | Some (BoolTensor rows) =>
      alloc (BoolTensor (ne_rows ((fun row : list bool => Z.b2z <$> row) <$> rows) other)) st
  | None => Raise (LibraryError "dangling tensor")
  end.

End Torch.
Import Torch.

(** A [dict] with string keys, in insertion order. *)
Definition dict (V : Type) : Type := list (string * V).

Definition keys {V} (d : dict V) : list string := d.*1.

(** [d[k]], when the key is present. *)
Fixpoint dict_get {V} (k : string) (d : dict V) : option V :=
  match d with
  | [] => None
  | (k', v) :: d' => if String.eqb k k' then Some v else dict_get k d'
  end.

Definition dummy_inputs (config : NERAdapterConfig) : M store (dict ref) :=
  let pad_token := pad_token_id config in
  input_ids ← torch_tensor [[0; 6; 10; 4; 2]; [0; 8; 12; 2; pad_token]];
  mask ← ne input_ids pad_token;
  let dummy_inputs :=
    [("attention_mask", mask);
     ("input_ids", input_ids);
     ("decoder_input_ids", input_ids)] in
  mret dummy_inputs.

(** * Specification vocabulary

    Derived notions used to state the properties: the calls each block of
    the constructor makes, queries on the history of [self.model], sample
    inputs, and stand-ins for the library used to exercise statements. *)

(** Membership, and non-membership by constructor clash, in an explicit
    list of calls. *)
Ltac here := repeat first [apply list_elem_of_here | apply list_elem_of_further].

Ltac absent H :=
  repeat (apply elem_of_cons in H as [H|H]; [discriminate H|]);
  now apply elem_of_nil in H.

(** The tags for which lines 51-54 bind [basemodel_class]. *)
Definition tag_class (tag : string) : option basemodel :=
  if str_in tag ["mbert"; "mbert_cased"] then Some BertAdapterModel
  else if String.eqb tag "xlm-r" then Some XLMRobertaAdapterModel
  else None.

(** The calls [__init__] makes on [self.model], by block. *)
Definition language_calls (config : NERAdapterConfig) : list lib_call :=
  if String.eqb (lang_adapter_ckpt config) EmptyString then []
  else [load_adapter (lang_adapter_ckpt config) (lang config) [11]].

Definition task_calls (config : NERAdapterConfig) : list lib_call :=
  if String.eqb (task_adapter_ckpt config) EmptyString then
    [add_adapter (ner_name config) (AdapterConfig_load "pfeiffer" "gelu" 16 [11]);
     add_tagging_head (ner_name config) (num_labels config)]
  else [load_adapter (task_adapter_ckpt config) (ner_name config) [11]].

Definition activation_calls (config : NERAdapterConfig) : list lib_call :=
  if String.eqb (lang_adapter_ckpt config) EmptyString then
    [set_active_adapters [ner_name config]]
  else [set_active_adapters [lang config; ner_name config]].

Definition init_history (config : NERAdapterConfig) : list lib_call :=
  (language_calls config ++ task_calls config ++ activation_calls config
     ++ [train_adapter [ner_name config]])%list.

Definition init_origin (config : NERAdapterConfig) : origin :=
  if String.eqb (pretrained_ck config) EmptyString then from_config config
  else from_pretrained (pretrained_ck config).

Definition constructed (config : NERAdapterConfig) (cls : basemodel)
    (w : world) : world :=
  {| fs := fs w;
     self_num_labels := Some (num_labels config);
     self_model := Some {| base_class := cls;
                           base_origin := init_origin config;
                           history := init_history config |};
     self_config := Some config |}.

(** The arguments of the [set_active_adapters] calls, oldest first. *)
Definition active_requests (h : list lib_call) : list (list string) :=
  omap (fun c => match c with set_active_adapters ns => Some ns | _ => None end) h.

(** The adapters most recently requested active. *)
Definition active_adapters (h : list lib_call) : option (list string) :=
  last (active_requests h).

(** The arguments of the [train_adapter] calls, oldest first. *)
Definition train_requests (h : list lib_call) : list (list string) :=
  omap (fun c => match c with train_adapter ns => Some ns | _ => None end) h.

(** The checkpoints loaded under a given adapter name. *)
Definition loaded_as (name : string) (h : list lib_call) : list string :=
  omap (fun c => match c with
                 | load_adapter p n _ => if String.eqb n name then Some p else None
                 | _ => None
                 end) h.

(** Sample inputs used to exercise the statements. *)
Definition sample_config : NERAdapterConfig :=
  {| model := "xlm-r"; pretrained_ck := "xlm-roberta-base";
     lang_adapter_ckpt := "ckpt/lang/am"; task_adapter_ckpt := EmptyString;
     lang := "am"; num_labels := 9; use_return_dict := true;
     pad_token_id := 1 |}.

Definition sample_config_task_only : NERAdapterConfig :=
  {| model := "mbert"; pretrained_ck := EmptyString;
     lang_adapter_ckpt := EmptyString; task_adapter_ckpt := "ckpt/ner/am";
     lang := "am"; num_labels := 9; use_return_dict := true;
     pad_token_id := 0 |}.

Definition sample_config_bad_tag : NERAdapterConfig :=
  {| model := "roberta"; pretrained_ck := EmptyString;
     lang_adapter_ckpt := EmptyString; task_adapter_ckpt := EmptyString;
     lang := "am"; num_labels := 9; use_return_dict := true;
     pad_token_id := 0 |}.

(** The object before [__init__] has run. *)
Definition fresh : world :=
  {| fs := ∅; self_num_labels := None; self_model := None;
     self_config := None |}.

(** Element [(i, j)] of a nested list. *)
Definition at2 {A} (rows : list (list A)) (i j : nat) : option A :=
  rows !! i ≫= fun row => row !! j.

(** [forward] called with [labels=l] and everything else as in [a]. *)
Definition with_labels {Tensor} (l : py_val Tensor) (a : forward_args Tensor)
  : forward_args Tensor :=
  {| input_ids := input_ids a; attention_mask := attention_mask a;
     token_type_ids := token_type_ids a; position_ids := position_ids a;
     head_mask := head_mask a; inputs_embeds := inputs_embeds a;
     labels := l;
     output_attentions := output_attentions a;
     output_hidden_states := output_hidden_states a;
     return_dict := return_dict a |}.

(** A value reaches the underlying model when it is among the arguments of
    the call. *)
Definition reaches {Tensor} (v : py_val Tensor) (c : model_args Tensor)
  : Prop :=
  v ∈ positional c \/ v ∈ (keywords c).*2.

(** The tensor-typed parameters of [forward]. *)
Definition tensor_inputs {Tensor} (a : forward_args Tensor)
  : list (py_val Tensor) :=
  [input_ids a; attention_mask a; token_type_ids a; position_ids a;
   head_mask a; inputs_embeds a; labels a].

Definition tensor_inputs_but_labels {Tensor} (a : forward_args Tensor)
  : list (py_val Tensor) :=
  [input_ids a; attention_mask a; token_type_ids a; position_ids a;
   head_mask a; inputs_embeds a].

(** The value of [return_dict] after line 115. *)
Definition resolved_return_dict {Tensor} (config : NERAdapterConfig)
    (a : forward_args Tensor) : py_val Tensor :=
  match return_dict a with
  | PyNone => PyBool (use_return_dict config)
  | v => v
  end.

(** The reading of the sentence 'every tensor argument accepted by
    forward, including labels, is passed through to self.model'. *)
Definition delegates_every_tensor_input {Tensor} (config : NERAdapterConfig)
    (a : forward_args Tensor) : Prop :=
  Forall (fun v => reaches v (delegated_args a (resolved_return_dict config a)))
         (tensor_inputs a).

(** A call that passes a labels tensor, here the tensor numbered 7, and
    nothing else. *)
Definition labels_only : forward_args nat :=
  {| input_ids := PyNone; attention_mask := PyNone; token_type_ids := PyNone;
     position_ids := PyNone; head_mask := PyNone; inputs_embeds := PyNone;
     labels := PyTensor 7%nat;
     output_attentions := PyNone; output_hidden_states := PyNone;
     return_dict := PyNone |}.

(** A stand-in for the underlying model that answers every call with a
    logits tensor; tensors are numbered. *)
Definition constant_logits (t : nat)
  : base_model -> model_args nat -> result (model_output nat) :=
  fun _ _ => Ok (ModelOutput {["logits" := PyTensor t]}).

(** The label count of the tagging head that the wrapper itself has set up
    on a model with history [h]: that of the latest [add_tagging_head]
    call, provided no checkpoint was loaded after it ([load_adapter] brings
    whatever head the checkpoint holds). *)
Definition head_labels (h : list lib_call) : option Z :=
  foldl (fun acc c =>
           match c with
           | add_tagging_head _ n => Some n
           | load_adapter _ _ _ => None
           | _ => acc
           end) None h.

Section LogitsSizeDefs.

Context {Tensor : Type}.
Variable call_model :
  base_model -> model_args Tensor -> result (model_output Tensor).
(** [t.size()] *)
Variable size : Tensor -> list nat.

Definition last_dim (v : py_val Tensor) : option Z :=
  match v with
  | PyTensor t => Z.of_nat <$> last (size t)
  | _ => None
  end.

(** What the wrapper relies on from the library: a model whose tagging
    head was added with [num_labels = n] produces logits whose last
    dimension is [n]. *)
Definition logits_sized_by_head : Prop :=
  forall m args fields v n,
    call_model m args = Ok (ModelOutput fields) ->
    fields !! "logits" = Some v ->
    head_labels (history m) = Some n ->
    last_dim v = Some n.

(** The reading of the sentence 'the logits tensor returned by forward
    has last dimension equal to num_labels', for one configuration. *)
Definition logits_match_num_labels (config : NERAdapterConfig) : Prop :=
  forall w0 w a v w',
    init config w0 = Ok (tt, w) ->
    forward call_model a w = Ok (v, w') ->
    last_dim v = Some (num_labels config).

End LogitsSizeDefs.

(** A stand-in for the library in which a tensor is its shape.  The logits
    of a batch of two sequences of five tokens have as last dimension the
    label count of the head the wrapper added, or, when the head came with
    a loaded checkpoint, the label count [ckpt_labels] stored there. *)
Definition shaped_library (ckpt_labels : nat)
  : base_model -> model_args (list nat) -> result (model_output (list nat)) :=
  fun m _ =>
    match head_labels (history m) with
    | Some n =>
        if Z.ltb n 0 then Raise (LibraryError "num_labels must be non-negative")
        else Ok (ModelOutput {["logits" := PyTensor [2; 5; Z.to_nat n]%nat]})
    | None =>
        Ok (ModelOutput {["logits" := PyTensor [2; 5; ckpt_labels]%nat]})
    end.

(** Every parameter of [forward] left at its default. *)
Definition no_args {Tensor} : forward_args Tensor :=
  {| input_ids := PyNone; attention_mask := PyNone; token_type_ids := PyNone;
     position_ids := PyNone; head_mask := PyNone; inputs_embeds := PyNone;
     labels := PyNone; output_attentions := PyNone;
     output_hidden_states := PyNone; return_dict := PyNone |}.

(** * [NERAdapterPreTrainedModel._init_weights]

    Parameter tensors hold floating-point numbers; nothing is computed with
    them here, so the element type stays abstract, with the two constants
    the code writes and a sampler for [normal_]. *)

(** The module kinds [_init_weights] distinguishes, with the parameters it
    touches.  A parameter that the module does not have is [None]. *)
Inductive nn_module (F : Type) : Type :=
| Linear (weight : list (list F)) (bias : option (list F))
| Embedding (weight : list (list F)) (padding_idx : option Z)
| LayerNorm (weight : option (list F)) (bias : option (list F))
| OtherModule (params : list (list F)).
Arguments Linear {F} weight bias.
Arguments Embedding {F} weight padding_idx.
Arguments LayerNorm {F} weight bias.
Arguments OtherModule {F} params.

Section InitWeights.

Context {F Rng : Type}.
(** [0.0] and [1.0] *)
Variable zero one : F.
(** One draw from the normal distribution with the given mean and standard
    deviation; the generator state is threaded. *)
Variable normal : F -> F -> Rng -> F * Rng.

Definition draw (mean std : F) : M Rng F := fun g =>
  let (x, g') := normal mean std g in Ok (x, g').

(** [row.normal_(mean, std)]: every element is replaced by a fresh draw. *)
Fixpoint normal_row (mean std : F) (row : list F) : M Rng (list F) :=
  match row with
  | [] => mret []
  | _ :: rest =>
      x ← draw mean std;
      rest' ← normal_row mean std rest;
      mret (x :: rest')
  end.

(** [t.normal_(mean, std)] on a two-dimensional tensor, row by row. *)
Fixpoint normal_ (mean std : F) (t : list (list F)) : M Rng (list (list F)) :=
  match t with
  | [] => mret []
  | row :: rows =>
      row' ← normal_row mean std row;
      rows' ← normal_ mean std rows;
      mret (row' :: rows')
  end.

(** [row.fill_(v)] and [row.zero_()] *)
Definition fill_ (v : F) (row : list F) : list F := (fun _ => v) <$> row.
Definition zero_ (row : list F) : list F := fill_ zero row.

(** The position an index denotes along a dimension of size [n]: negative
    indices count from the end. *)
Definition position (n : nat) (i : Z) : option nat :=
  if Z.leb 0 i then
    if Z.ltb i (Z.of_nat n) then Some (Z.to_nat i) else None
  else
    if Z.leb (- Z.of_nat n) i then Some (Z.to_nat (Z.of_nat n + i)) else None.

(** [t[i].zero_()]: row [i] of [t] is zeroed in place; an index outside
    the tensor is the library's [IndexError]. *)
Definition zero_row (t : list (list F)) (i : Z) : M Rng (list (list F)) :=
  match position (List.length t) i with
  | Some k => mret (alter zero_ k t)
  | None => raise (LibraryError "IndexError: index out of range")
  end.

(** [p.data] for a parameter [p] that may be [None]. *)
Definition data {A} (p : option A) : M Rng A :=
  match p with
  | Some d => mret d
  | None => raise (AttributeError "data")
  end.

(** [initializer_range] is [self.config.initializer_range]. *)
Definition _init_weights (initializer_range : F) (module : nn_module F)
  : M Rng (nn_module F) :=
  match module with
  | Linear weight bias =>
      weight' ← normal_ zero initializer_range weight;
      match bias with
      | Some b => mret (Linear weight' (Some (zero_ b)))
      | None => mret (Linear weight' None)
      end
  | Embedding weight padding_idx =>
      weight' ← normal_ zero initializer_range weight;
      match padding_idx with
      | Some i =>
          weight'' ← zero_row weight' i;
          mret (Embedding weight'' padding_idx)
      | None => mret (Embedding weight' padding_idx)
      end
  | LayerNorm weight bias =>
      b ← data bias;
      w ← data weight;
      mret (LayerNorm (Some (fill_ one w)) (Some (zero_ b)))
  | OtherModule _ => mret module
  end.

(** The generator after [n] draws. *)
Fixpoint after_draws (mean std : F) (n : nat) (g : Rng) : Rng :=
  match n with
  | O => g
  | S k => after_draws mean std k (snd (normal mean std g))
  end.

End InitWeights.

(** The lengths of the rows of a tensor. *)
Definition shape {A} (t : list (list A)) : list nat := List.length <$> t.

(** The number of elements of a tensor. *)
Definition numel {A} (t : list (list A)) : nat := sum_list (shape t).

(** A stand-in sampler: the generator is a counter and a draw returns it. *)
Definition counter_normal (mean std : Z) (g : nat) : Z * nat :=
  (Z.of_nat g, S g).

(** * More vocabulary for the constructor *)

(** The adapter names a call introduces and the ones it refers to. *)
Definition introduces (c : lib_call) : list string :=
  match c with
  | load_adapter _ n _ => [n]
  | add_adapter n _ => [n]
  | _ => []
  end.

Definition refers_to (c : lib_call) : list string :=
  match c with
  | add_tagging_head n _ => [n]
  | set_active_adapters ns => ns
  | train_adapter ns => ns
  | save_adapter _ n _ => [n]
  | _ => []
  end.

(** Every call refers only to adapters introduced before it; [seen] are the
    names known at the start. *)
Fixpoint scoped (seen : list string) (h : list lib_call) : Prop :=
  match h with
  | [] => True
  | c :: h' =>
      Forall (fun n => n ∈ seen) (refers_to c)
      /\ scoped (introduces c ++ seen)%list h'
  end.

(** The [leave_out] lists handed to the library. *)
Definition leave_outs (h : list lib_call) : list (list Z) :=
  omap (fun c => match c with
                 | load_adapter _ _ lo => Some lo
                 | add_adapter _ c => Some (ac_leave_out c)
                 | _ => None
                 end) h.

(** Calls that set an adapter up, as opposed to using one. *)
Definition is_setup (c : lib_call) : Prop :=
  match c with
  | load_adapter _ _ _ | add_adapter _ _ | add_tagging_head _ _ => True
  | _ => False
  end.

(** [config] with another label count. *)
Definition with_num_labels (n : Z) (config : NERAdapterConfig)
  : NERAdapterConfig :=
  {| model := model config; pretrained_ck := pretrained_ck config;
     lang_adapter_ckpt := lang_adapter_ckpt config;
     task_adapter_ckpt := task_adapter_ckpt config;
     lang := lang config; num_labels := n;
     use_return_dict := use_return_dict config;
     pad_token_id := pad_token_id config |}.

(** [forward] called with [return_dict=rd] and everything else as in [a]. *)
Definition with_return_dict {Tensor} (rd : py_val Tensor)
    (a : forward_args Tensor) : forward_args Tensor :=
  {| input_ids := input_ids a; attention_mask := attention_mask a;
     token_type_ids := token_type_ids a; position_ids := position_ids a;
     head_mask := head_mask a; inputs_embeds := inputs_embeds a;
     labels := labels a;
     output_attentions := output_attentions a;
     output_hidden_states := output_hidden_states a;
     return_dict := rd |}.

(** The token ids that appear in the dummy batch besides the pad token. *)
Definition dummy_token_ids : list Z := [0; 6; 10; 4; 2; 8; 12].

(** A configuration that names both checkpoints and a base checkpoint. *)
Definition sample_config_all_ckpts : NERAdapterConfig :=
  {| model := "mbert_cased"; pretrained_ck := "bert-base-multilingual-cased";
     lang_adapter_ckpt := "ckpt/lang/sw"; task_adapter_ckpt := "ckpt/ner/sw";
     lang := "sw"; num_labels := 9; use_return_dict := true;
     pad_token_id := 0 |}.

(** Case analysis on the two checkpoint fields that shape the history. *)
Ltac history_cases config :=
  unfold init_history, language_calls, task_calls, activation_calls;
  destruct (String.eqb (lang_adapter_ckpt config) EmptyString);
  destruct (String.eqb (task_adapter_ckpt config) EmptyString).

(** * The active set inside the library, and the activation step

    [set_active_adapters] installs the list it is given.  [train_adapter]
    freezes the model, enables training for the adapters it is given and,
    as its last step, makes those adapters the active ones.  The other
    calls leave the active set as it is.  [library_active] is the active
    set after a sequence of calls, [None] when none was ever set. *)
Definition library_active (h : list lib_call) : option (list string) :=
  foldl (fun acc c =>
           match c with
           | set_active_adapters ns => Some ns
           | train_adapter ns => Some ns
           | _ => acc
           end) None h.

(** [__init__] with lines 83-88 replaced by [act], which receives the
    value the local [adapter_mode] has at that point. *)
Definition init_with_activation
    (act : NERAdapterConfig -> Z -> M world unit)
    (config : NERAdapterConfig) : M world unit :=
  set_num_labels (num_labels config);;
  basemodel_class ← select_basemodel_class config;
  build_base config basemodel_class;;
  adapter_mode ← language_adapter config;
  task_adapter config;;
  act config adapter_mode;;
  model_do (train_adapter [ner_name config]);;
  set_config config.

(** An activation step that does fail on a mode other than 1 and 2. *)
Definition strict_activate (config : NERAdapterConfig) (adapter_mode : Z)
  : M world unit :=
  if Z.eqb adapter_mode 1 || Z.eqb adapter_mode 2
  then activate config adapter_mode
  else raise AssertionError.

(** * Properties *)

(** ** Running the monad *)

Lemma bind_ok {S A B} (m : M S A) (k : A -> M S B) s a s' :
  m s = Ok (a, s') -> (m ≫= k) s = k a s'.
Proof. intros H. unfold mbind, M_bind. now rewrite H. Qed.

(** ** Strings *)

(** Both assertion messages start with a fixed non-empty text. *)
Lemma model_tag_message_truthy config :
  truthy_str (model_tag_message config) = true.
Proof. reflexivity. Qed.

Lemma adapter_mode_message_truthy adapter_mode :
  truthy_str (adapter_mode_message adapter_mode) = true.
Proof. reflexivity. Qed.

Lemma append_length (s t : string) :
  String.length (s +:+ t) = (String.length s + String.length t)%nat.
Proof. induction s as [|c s IH]; simpl; [reflexivity | now f_equal]. Qed.

(** The task adapter's name never coincides with the language name. *)
Lemma ner_name_neq_lang config : ner_name config <> lang config.
Proof.
  unfold ner_name. intros H.
  apply (f_equal String.length) in H. rewrite append_length in H.
  cbn in H. lia.
Qed.

Lemma eqb_empty_false (s : string) :
  s <> EmptyString -> String.eqb s EmptyString = false.
Proof. intros H. now apply String.eqb_neq. Qed.

Lemma eqb_empty_true (s : string) :
  s = EmptyString -> String.eqb s EmptyString = true.
Proof. intros ->. reflexivity. Qed.

(** ** Model family tags *)

Lemma select_basemodel_class_eq config w :
  select_basemodel_class config w = Ok (tag_class (model config), w).
Proof.
  unfold select_basemodel_class, tag_class.
  destruct (str_in _ _); [reflexivity|].
  destruct (String.eqb _ _); reflexivity.
Qed.

Lemma tag_class_Bert tag :
  tag_class tag = Some BertAdapterModel <->
  tag = "mbert" \/ tag = "mbert_cased".
Proof.
  unfold tag_class, str_in. cbn.
  destruct (String.eqb_spec tag "mbert") as [->|H1]; cbn.
  { split; auto. }
  destruct (String.eqb_spec tag "mbert_cased") as [->|H2]; cbn.
  { split; auto. }
  destruct (String.eqb_spec tag "xlm-r"); split;
    (discriminate || (intros [?|?]; congruence)).
Qed.

Lemma tag_class_XLMR tag :
  tag_class tag = Some XLMRobertaAdapterModel <-> tag = "xlm-r".
Proof.
  unfold tag_class, str_in. cbn.
  destruct (String.eqb_spec tag "mbert") as [->|H1]; cbn.
  { split; discriminate. }
  destruct (String.eqb_spec tag "mbert_cased") as [->|H2]; cbn.
  { split; discriminate. }
  destruct (String.eqb_spec tag "xlm-r"); split; (congruence || discriminate).
Qed.

Lemma tag_class_None tag :
  tag_class tag = None <->
  tag <> "mbert" /\ tag <> "mbert_cased" /\ tag <> "xlm-r".
Proof.
  unfold tag_class, str_in. cbn.
  destruct (String.eqb_spec tag "mbert") as [->|H1]; cbn.
  { split; [discriminate | intros (? & _); congruence]. }
  destruct (String.eqb_spec tag "mbert_cased") as [->|H2]; cbn.
  { split; [discriminate | intros (? & ? & _); congruence]. }
  destruct (String.eqb_spec tag "xlm-r") as [->|H3].
  { split; [discriminate | intros (? & ? & ?); congruence]. }
  split; auto.
Qed.

(** ** The constructor, run to completion *)

Lemma init_run config cls w :
  tag_class (model config) = Some cls ->
  init config w = Ok (tt, constructed config cls w).
Proof.
  intros Hcls. unfold init.
  unfold mbind at 1, M_bind at 1. cbn [set_num_labels].
  erewrite bind_ok by apply select_basemodel_class_eq.
  rewrite Hcls.
  unfold constructed, init_history, init_origin, language_calls, task_calls,
    activation_calls, build_base, language_adapter, task_adapter, activate.
  destruct (String.eqb (pretrained_ck config) EmptyString);
    destruct (String.eqb (lang_adapter_ckpt config) EmptyString);
    destruct (String.eqb (task_adapter_ckpt config) EmptyString);
    reflexivity.
Qed.

Lemma init_unbound config w :
  tag_class (model config) = None ->
  init config w = Raise (UnboundLocalError "basemodel_class").
Proof.
  intros Hcls. unfold init.
  unfold mbind at 1, M_bind at 1. cbn [set_num_labels].
  erewrite bind_ok by apply select_basemodel_class_eq.
  rewrite Hcls. unfold build_base.
  destruct (String.eqb (pretrained_ck config) EmptyString); reflexivity.
Qed.

Example init_sample_run :
  init sample_config fresh
  = Ok (tt,
        {| fs := ∅; self_num_labels := Some 9;
           self_model :=
             Some {| base_class := XLMRobertaAdapterModel;
                     base_origin := from_pretrained "xlm-roberta-base";
                     history :=
                       [load_adapter "ckpt/lang/am" "am" [11];
                        add_adapter "am_ner"
                          (AdapterConfig_load "pfeiffer" "gelu" 16 [11]);
                        add_tagging_head "am_ner" 9;
                        set_active_adapters ["am"; "am_ner"];
                        train_adapter ["am_ner"]] |};
           self_config := Some sample_config |}).
Proof. reflexivity. Qed.

Example init_sample_task_only_run :
  init sample_config_task_only fresh
  = Ok (tt,
        {| fs := ∅; self_num_labels := Some 9;
           self_model :=
             Some {| base_class := BertAdapterModel;
                     base_origin := from_config sample_config_task_only;
                     history :=
                       [load_adapter "ckpt/ner/am" "am_ner" [11];
                        set_active_adapters ["am_ner"];
                        train_adapter ["am_ner"]] |};
           self_config := Some sample_config_task_only |}).
Proof. reflexivity. Qed.

Example init_sample_bad_tag_run :
  init sample_config_bad_tag fresh = Raise (UnboundLocalError "basemodel_class").
Proof. reflexivity. Qed.

(** ** Queries on the history of the constructed model *)

Lemma loaded_as_lang_task_calls config :
  loaded_as (lang config) (task_calls config) = [].
Proof.
  unfold task_calls, loaded_as.
  destruct (String.eqb (task_adapter_ckpt config) EmptyString); cbn;
    [reflexivity|].
  destruct (String.eqb_spec (ner_name config) (lang config)) as [E|_];
    [now apply ner_name_neq_lang in E | reflexivity].
Qed.

Lemma loaded_as_app name h1 h2 :
  loaded_as name (h1 ++ h2) = (loaded_as name h1 ++ loaded_as name h2)%list.
Proof. apply omap_app. Qed.

Lemma active_requests_app h1 h2 :
  active_requests (h1 ++ h2)
  = (active_requests h1 ++ active_requests h2)%list.
Proof. apply omap_app. Qed.

Lemma train_requests_app h1 h2 :
  train_requests (h1 ++ h2) = (train_requests h1 ++ train_requests h2)%list.
Proof. apply omap_app. Qed.

Lemma active_requests_language_calls config :
  active_requests (language_calls config) = [].
Proof.
  unfold language_calls.
  destruct (String.eqb (lang_adapter_ckpt config) EmptyString); reflexivity.
Qed.

Lemma active_requests_task_calls config :
  active_requests (task_calls config) = [].
Proof.
  unfold task_calls.
  destruct (String.eqb (task_adapter_ckpt config) EmptyString); reflexivity.
Qed.

Lemma active_requests_init_history config :
  active_requests (init_history config)
  = if String.eqb (lang_adapter_ckpt config) EmptyString
    then [[ner_name config]] else [[lang config; ner_name config]].
Proof.
  unfold init_history.
  rewrite !active_requests_app, active_requests_language_calls,
    active_requests_task_calls.
  unfold activation_calls.
  destruct (String.eqb (lang_adapter_ckpt config) EmptyString); reflexivity.
Qed.

Lemma train_requests_init_history config :
  train_requests (init_history config) = [[ner_name config]].
Proof.
  unfold init_history, language_calls, task_calls, activation_calls.
  destruct (String.eqb (lang_adapter_ckpt config) EmptyString);
    destruct (String.eqb (task_adapter_ckpt config) EmptyString); reflexivity.
Qed.

Lemma loaded_as_lang_init_history config :
  loaded_as (lang config) (init_history config)
  = if String.eqb (lang_adapter_ckpt config) EmptyString then []
    else [lang_adapter_ckpt config].
Proof.
  unfold init_history.
  rewrite !loaded_as_app, loaded_as_lang_task_calls.
  unfold language_calls, activation_calls.
  destruct (String.eqb (lang_adapter_ckpt config) EmptyString); cbn;
    [reflexivity|].
  now rewrite String.eqb_refl.
Qed.

(** ** The constructor's contract *)

Lemma library_active_init_history config :
  library_active (init_history config) = Some [ner_name config].
Proof. history_cases config; reflexivity. Qed.

(** C1.  The language adapter is handled as the claim says: with a
    non-empty [lang_adapter_ckpt] it is loaded under the name
    [config.lang] and the constructor asks for the active adapters
    [[config.lang, f'{config.lang}_ner']]; with an empty one nothing is
    loaded under [config.lang] and it asks for [[f'{config.lang}_ner']].
    But the constructor then calls [train_adapter] on the task adapter
    alone, and that call is the last one to set the active adapters: after
    construction the active set is [[f'{config.lang}_ner']] in both cases,
    so a loaded language adapter is not active. *)
Theorem init_active_set_after_train_adapter config cls w :
  tag_class (model config) = Some cls ->
  exists w' m,
    init config w = Ok (tt, w') /\ self_model w' = Some m /\
    library_active (history m) = Some [ner_name config] /\
    last (history m) = Some (train_adapter [ner_name config]) /\
    (lang_adapter_ckpt config <> EmptyString ->
       loaded_as (lang config) (history m) = [lang_adapter_ckpt config]
       /\ active_requests (history m) = [[lang config; ner_name config]]
       /\ library_active (history m) <> Some [lang config; ner_name config])
    /\
    (lang_adapter_ckpt config = EmptyString ->
       loaded_as (lang config) (history m) = []
       /\ active_requests (history m) = [[ner_name config]]).
Proof.
  intros Hcls. eexists _, _. split; [apply (init_run _ _ _ Hcls)|].
  split; [reflexivity|]. cbn [history].
  rewrite library_active_init_history, active_requests_init_history,
    loaded_as_lang_init_history.
  split; [reflexivity|].
  split.
  { unfold init_history. rewrite !app_assoc. apply last_snoc. }
  split; intros H.
  - rewrite (eqb_empty_false _ H). repeat split; try reflexivity.
    intros E. injection E as E. now apply (ner_name_neq_lang config).
  - rewrite (eqb_empty_true _ H). split; reflexivity.
Qed.

Lemma init_active_set_after_train_adapter_witness :
  tag_class (model sample_config) = Some XLMRobertaAdapterModel /\
  exists w' m,
    init sample_config fresh = Ok (tt, w') /\ self_model w' = Some m /\
    loaded_as "am" (history m) = ["ckpt/lang/am"] /\
    active_requests (history m) = [["am"; "am_ner"]] /\
    library_active (history m) = Some ["am_ner"].
Proof.
  split; [reflexivity|].
  destruct (init_active_set_after_train_adapter sample_config
              XLMRobertaAdapterModel fresh eq_refl)
    as (w' & m & Hrun & Hm & Hact & _ & Hyes & _).
  exists w', m. split; [exact Hrun|]. split; [exact Hm|].
  destruct Hyes as (Hl & Hr & _); [discriminate|].
  repeat split; assumption.
Defined.

(** C3.  Neither assertion-like statement of [__init__] can fail: each
    asserts a non-empty string, so it completes without changing anything,
    and the constructor never raises [AssertionError], whatever the model
    tag.  (With a tag outside the recognised ones the constructor still
    stops, later, on the unassigned local [basemodel_class].) *)
Theorem init_assertions_never_raise config adapter_mode w :
  truthy_str (model_tag_message config) = true /\
  truthy_str (adapter_mode_message adapter_mode) = true /\
  assert_str (model_tag_message config) w = Ok (tt, w) /\
  assert_str (adapter_mode_message adapter_mode) w = Ok (tt, w) /\
  init config w <> Raise AssertionError /\
  (tag_class (model config) = None ->
     select_basemodel_class config w = Ok (None, w) /\
     init config w = Raise (UnboundLocalError "basemodel_class")).
Proof.
  split; [apply model_tag_message_truthy|].
  split; [apply adapter_mode_message_truthy|].
  split; [reflexivity|]. split; [reflexivity|]. split.
  - destruct (tag_class (model config)) as [cls|] eqn:Hcls.
    + rewrite (init_run _ _ _ Hcls). discriminate.
    + rewrite (init_unbound _ _ Hcls). discriminate.
  - intros Hcls. split; [|now apply init_unbound].
    now rewrite select_basemodel_class_eq, Hcls.
Qed.

Lemma init_assertions_never_raise_witness :
  tag_class (model sample_config_bad_tag) = None /\
  init sample_config_bad_tag fresh <> Raise AssertionError /\
  init sample_config_bad_tag fresh = Raise (UnboundLocalError "basemodel_class").
Proof.
  split; [reflexivity|].
  destruct (init_assertions_never_raise sample_config_bad_tag 0 fresh)
    as (_ & _ & _ & _ & Hno & Hbad).
  split; [exact Hno | exact (proj2 (Hbad eq_refl))].
Defined.

(** C4.  When construction goes through: with a non-empty
    [task_adapter_ckpt] the task adapter is loaded from that path under
    the name [f'{config.lang}_ner'], and no adapter or head is created
    under that name; with an empty [task_adapter_ckpt] a new adapter of
    that name is added with the pfeiffer configuration, then a tagging
    head of that name with [num_labels = config.num_labels], and nothing
    is loaded under that name. *)
Theorem init_task_adapter config cls w :
  tag_class (model config) = Some cls ->
  exists w' m,
    init config w = Ok (tt, w') /\ self_model w' = Some m /\
    (task_adapter_ckpt config <> EmptyString ->
       load_adapter (task_adapter_ckpt config) (ner_name config) [11]
         ∈ history m
       /\ loaded_as (ner_name config) (history m) = [task_adapter_ckpt config]
       /\ (forall n c, add_adapter n c ∉ history m)
       /\ (forall n k, add_tagging_head n k ∉ history m))
    /\
    (task_adapter_ckpt config = EmptyString ->
       (exists before after,
          history m =
            (before
             ++ [add_adapter (ner_name config)
                   (AdapterConfig_load "pfeiffer" "gelu" 16 [11]);
                 add_tagging_head (ner_name config) (num_labels config)]
             ++ after)%list
          /\ (forall n c, add_adapter n c ∉ (before ++ after)%list)
          /\ (forall n k, add_tagging_head n k ∉ (before ++ after)%list))
       /\ loaded_as (ner_name config) (history m) = []).
Proof.
  intros Hcls. eexists _, _. split; [apply (init_run _ _ _ Hcls)|].
  split; [reflexivity|]. cbn [history].
  assert (Hne : String.eqb (lang config) (ner_name config) = false).
  { apply String.eqb_neq. intros E. now apply (ner_name_neq_lang config). }
  split; intros H.
  - unfold init_history, task_calls, language_calls, activation_calls.
    rewrite (eqb_empty_false _ H).
    destruct (String.eqb (lang_adapter_ckpt config) EmptyString); cbn;
      rewrite ?Hne, String.eqb_refl;
      (split; [here|]); (split; [reflexivity|]);
      split; intros ? ? Hin; absent Hin.
  - unfold init_history, task_calls. rewrite (eqb_empty_true _ H).
    split.
    + exists (language_calls config),
        (activation_calls config ++ [train_adapter [ner_name config]])%list.
      split; [reflexivity|].
      unfold language_calls, activation_calls.
      destruct (String.eqb (lang_adapter_ckpt config) EmptyString); cbn;
        split; intros ? ? Hin; absent Hin.
    + unfold language_calls, activation_calls.
      destruct (String.eqb (lang_adapter_ckpt config) EmptyString); cbn;
        rewrite ?Hne; reflexivity.
Qed.

Lemma init_task_adapter_witness :
  tag_class (model sample_config) = Some XLMRobertaAdapterModel /\
  exists w' m,
    init sample_config fresh = Ok (tt, w') /\ self_model w' = Some m /\
    add_tagging_head "am_ner" 9 ∈ history m /\
    loaded_as "am_ner" (history m) = [].
Proof.
  split; [reflexivity|].
  destruct (init_task_adapter sample_config XLMRobertaAdapterModel fresh
              eq_refl)
    as (w' & m & Hrun & Hm & _ & Hnew).
  exists w', m. split; [exact Hrun|]. split; [exact Hm|].
  destruct (Hnew eq_refl) as ((before & after & Hh & _) & Hl).
  split; [|exact Hl].
  rewrite Hh. apply elem_of_app. right. here.
Defined.

(** C5.  The model tag selects the base class: ['mbert'] and
    ['mbert_cased'] give [BertAdapterModel], ['xlm-r'] gives
    [XLMRobertaAdapterModel], and these are the only two classes there
    are; for any other tag the local [basemodel_class] is left unassigned
    and the constructor stops with [UnboundLocalError] before any model
    object exists. *)
Theorem init_selects_base_class config w :
  (model config = "mbert" \/ model config = "mbert_cased" ->
     select_basemodel_class config w = Ok (Some BertAdapterModel, w) /\
     exists w' m, init config w = Ok (tt, w') /\ self_model w' = Some m /\
                  base_class m = BertAdapterModel)
  /\
  (model config = "xlm-r" ->
     select_basemodel_class config w = Ok (Some XLMRobertaAdapterModel, w) /\
     exists w' m, init config w = Ok (tt, w') /\ self_model w' = Some m /\
                  base_class m = XLMRobertaAdapterModel)
  /\
  (model config <> "mbert" -> model config <> "mbert_cased" ->
   model config <> "xlm-r" ->
     select_basemodel_class config w = Ok (None, w) /\
     init config w = Raise (UnboundLocalError "basemodel_class"))
  /\
  (forall cls : basemodel,
     cls = BertAdapterModel \/ cls = XLMRobertaAdapterModel).
Proof.
  repeat split.
  - apply tag_class_Bert in H. now rewrite select_basemodel_class_eq, H.
  - apply tag_class_Bert in H. eexists _, _.
    split; [apply (init_run _ _ _ H)|]. split; reflexivity.
  - apply tag_class_XLMR in H. now rewrite select_basemodel_class_eq, H.
  - apply tag_class_XLMR in H. eexists _, _.
    split; [apply (init_run _ _ _ H)|]. split; reflexivity.
  - assert (Hn : tag_class (model config) = None) by now apply tag_class_None.
    now rewrite select_basemodel_class_eq, Hn.
  - apply init_unbound. now apply tag_class_None.
  - intros []; auto.
Qed.

Lemma init_selects_base_class_witness :
  (exists w' m, init sample_config_task_only fresh = Ok (tt, w') /\
                self_model w' = Some m /\ base_class m = BertAdapterModel)
  /\
  (exists w' m, init sample_config fresh = Ok (tt, w') /\
                self_model w' = Some m /\
                base_class m = XLMRobertaAdapterModel)
  /\
  init sample_config_bad_tag fresh = Raise (UnboundLocalError "basemodel_class").
Proof.
  split; [|split].
  - destruct (init_selects_base_class sample_config_task_only fresh)
      as (Hb & _).
    exact (proj2 (Hb (or_introl eq_refl))).
  - destruct (init_selects_base_class sample_config fresh) as (_ & Hx & _).
    exact (proj2 (Hx eq_refl)).
  - destruct (init_selects_base_class sample_config_bad_tag fresh)
      as (_ & _ & Hn & _).
    apply Hn; discriminate.
Defined.

(** C7.  When construction goes through, [train_adapter] is invoked once,
    as the last call on the underlying model, with exactly the one-element
    list [[f'{config.lang}_ner']]; the language adapter is never part of
    it, whether or not one was loaded. *)
Theorem init_trains_task_adapter_only config cls w :
  tag_class (model config) = Some cls ->
  exists w' m,
    init config w = Ok (tt, w') /\ self_model w' = Some m /\
    train_requests (history m) = [[ner_name config]] /\
    last (history m) = Some (train_adapter [ner_name config]).
Proof.
  intros Hcls. eexists _, _. split; [apply (init_run _ _ _ Hcls)|].
  split; [reflexivity|]. cbn [history].
  split; [apply train_requests_init_history|].
  unfold init_history. rewrite !app_assoc. apply last_snoc.
Qed.

Lemma init_trains_task_adapter_only_witness :
  tag_class (model sample_config) = Some XLMRobertaAdapterModel /\
  exists w' m,
    init sample_config fresh = Ok (tt, w') /\ self_model w' = Some m /\
    train_requests (history m) = [["am_ner"]] /\
    last (history m) = Some (train_adapter ["am_ner"]).
Proof.
  split; [reflexivity|].
  exact (init_trains_task_adapter_only sample_config XLMRobertaAdapterModel
           fresh eq_refl).
Defined.

(** C9.  In [__init__] the local [adapter_mode] is 1 or 2 when lines
    83-88 are reached: 1 exactly when [lang_adapter_ckpt] is the empty
    string, 2 otherwise.  The activation step is only ever run with that
    value, so whatever stands in the final [else] (the 'Unknown adapter
    mode' assertion) has no part in any run of the constructor: replacing
    lines 83-88 by any step that agrees with them on the mode that
    [lang_adapter_ckpt] determines leaves [__init__] unchanged.  The
    language-adapter conditional itself, once [self.model] is bound, always
    completes with that value. *)
Theorem adapter_mode_one_or_two config w :
  init config w = init_with_activation activate config w /\
  (forall act,
     (lang_adapter_ckpt config = EmptyString ->
        forall w1, act config 1 w1 = activate config 1 w1) ->
     (lang_adapter_ckpt config <> EmptyString ->
        forall w1, act config 2 w1 = activate config 2 w1) ->
     init_with_activation act config w = init config w) /\
  (forall m, self_model w = Some m ->
     exists adapter_mode w',
       language_adapter config w = Ok (adapter_mode, w') /\
       (adapter_mode = 1 \/ adapter_mode = 2) /\
       (adapter_mode = 1 <-> lang_adapter_ckpt config = EmptyString) /\
       (adapter_mode = 2 <-> lang_adapter_ckpt config <> EmptyString) /\
       (Z.eqb adapter_mode 1 || Z.eqb adapter_mode 2 = true) /\
       activate config adapter_mode
       = model_do (set_active_adapters
                     (if Z.eqb adapter_mode 1 then [ner_name config]
                      else [lang config; ner_name config]))).
Proof.
  split; [reflexivity|]. split.
  - intros act H1 H2. unfold init_with_activation, init.
    unfold mbind, M_bind, mret, M_ret. cbn [set_num_labels].
    rewrite !select_basemodel_class_eq.
    destruct (tag_class (model config)) as [cls|].
    + unfold build_base, language_adapter, task_adapter, local, model_do,
        get_model, set_model, mbind, M_bind, mret, M_ret.
      destruct (String.eqb (pretrained_ck config) EmptyString);
        destruct (String.eqb_spec (lang_adapter_ckpt config) EmptyString)
          as [E|E];
        destruct (String.eqb (task_adapter_ckpt config) EmptyString);
        cbn; rewrite ?(H1 E), ?(H2 E); reflexivity.
    + unfold build_base, local, raise, mbind, M_bind.
      destruct (String.eqb (pretrained_ck config) EmptyString); reflexivity.
  - intros m Hm. unfold language_adapter.
    destruct (String.eqb_spec (lang_adapter_ckpt config) EmptyString) as [E|E].
    + exists 1, w. split; [reflexivity|].
      repeat split; auto; try discriminate; intros; congruence.
    + eexists 2, _. split.
      { unfold model_do, get_model, mbind, M_bind. rewrite Hm. reflexivity. }
      repeat split; auto; try discriminate; intros; congruence.
Qed.

Lemma adapter_mode_one_or_two_witness :
  init_with_activation strict_activate sample_config fresh
  = init sample_config fresh
  /\ init_with_activation strict_activate sample_config_task_only fresh
     = init sample_config_task_only fresh.
Proof.
  split.
  - apply (proj1 (proj2 (adapter_mode_one_or_two sample_config fresh))).
    + discriminate.
    + intros _ w1. reflexivity.
  - apply (proj1 (proj2 (adapter_mode_one_or_two sample_config_task_only fresh))).
    + intros _ w1. reflexivity.
    + intros H. now contradiction H.
Defined.

(** ** Saving *)

Lemma lang_dir_run path config w :
  self_config w = Some config ->
  lang_dir path w = Ok (path +:+ "/" +:+ lang config, w).
Proof. intros H. unfold lang_dir, get_config, mbind, M_bind. now rewrite H. Qed.

Lemma self_ner_name_run config w :
  self_config w = Some config -> self_ner_name w = Ok (ner_name config, w).
Proof.
  intros H. unfold self_ner_name, get_config, mbind, M_bind. now rewrite H.
Qed.

Lemma model_do_run c m w :
  self_model w = Some m ->
  model_do c w
  = Ok (tt, {| fs := fs w; self_num_labels := self_num_labels w;
               self_model := Some (record_call c m);
               self_config := self_config w |}).
Proof. intros H. unfold model_do, get_model, mbind, M_bind. now rewrite H. Qed.

(** C8.  On a constructed object, [save_pretrained path] works under the
    directory [f'{path}/{config.lang}']: the directory is created when it
    does not exist (and left alone when it does), then the underlying
    model's config is saved there, then the adapter named
    [f'{config.lang}_ner'] is saved there with [with_head=True].  Nothing
    else is asked of the underlying model and [self] is otherwise
    unchanged. *)
Theorem save_pretrained_delegates path config m w :
  self_config w = Some config ->
  self_model w = Some m ->
  exists w' m',
    save_pretrained path w = Ok (tt, w') /\
    (path +:+ "/" +:+ lang config ∉ fs w ->
       fs w' = {[path +:+ "/" +:+ lang config]} ∪ fs w) /\
    (path +:+ "/" +:+ lang config ∈ fs w -> fs w' = fs w) /\
    path +:+ "/" +:+ lang config ∈ fs w' /\
    self_model w' = Some m' /\
    base_class m' = base_class m /\ base_origin m' = base_origin m /\
    history m' =
      (history m
       ++ [config_save_pretrained (path +:+ "/" +:+ lang config);
           save_adapter (path +:+ "/" +:+ lang config) (ner_name config) true])%list /\
    self_config w' = Some config /\
    self_num_labels w' = self_num_labels w.
Proof.
  intros Hc Hm. unfold save_pretrained.
  erewrite bind_ok by (apply lang_dir_run; exact Hc).
  unfold os_path_exists at 1, mbind at 1, M_bind at 1.
  set (d := path +:+ "/" +:+ lang config).
  destruct (decide (d ∈ fs w)) as [Hin|Hout].
  - rewrite (bool_decide_eq_true_2 _ Hin). cbn [negb].
    unfold mbind at 1, M_bind at 1, mret at 1, M_ret at 1.
    erewrite bind_ok by (apply lang_dir_run; exact Hc).
    erewrite bind_ok by (apply model_do_run; exact Hm).
    erewrite bind_ok by (apply lang_dir_run; exact Hc).
    erewrite bind_ok by (apply self_ner_name_run; exact Hc).
    erewrite model_do_run by reflexivity.
    eexists _, _. split; [reflexivity|]. cbn.
    repeat split; auto; try contradiction.
    unfold record_call. cbn [history]. now rewrite <- app_assoc.
  - rewrite (bool_decide_eq_false_2 _ Hout). cbn [negb].
    unfold mbind at 1, M_bind at 1.
    erewrite bind_ok by (apply lang_dir_run; exact Hc).
    fold d. unfold os_makedirs. rewrite (bool_decide_eq_false_2 _ Hout).
    erewrite bind_ok by (apply lang_dir_run; exact Hc).
    erewrite bind_ok by (apply model_do_run; exact Hm).
    erewrite bind_ok by (apply lang_dir_run; exact Hc).
    erewrite bind_ok by (apply self_ner_name_run; exact Hc).
    erewrite model_do_run by reflexivity.
    eexists _, _. split; [reflexivity|]. cbn.
    repeat split; auto; try contradiction.
    + apply elem_of_union. left. now apply elem_of_singleton.
    + unfold record_call. cbn [history]. now rewrite <- app_assoc.
Qed.

Lemma save_pretrained_delegates_witness :
  exists w' m',
    save_pretrained "out"
      (constructed sample_config XLMRobertaAdapterModel fresh) = Ok (tt, w') /\
    "out/am" ∈ fs w' /\ self_model w' = Some m' /\
    history m' =
      (init_history sample_config
       ++ [config_save_pretrained "out/am";
           save_adapter "out/am" "am_ner" true])%list.
Proof.
  destruct (save_pretrained_delegates "out" sample_config _
              (constructed sample_config XLMRobertaAdapterModel fresh)
              eq_refl eq_refl)
    as (w' & m' & Hrun & _ & _ & Hin & Hm' & _ & _ & Hh & _).
  exists w', m'. repeat split; assumption.
Defined.

(** ** Dummy inputs *)

Lemma ne_rows_at2 rows other i j :
  at2 (ne_rows rows other) i j
  = (fun x => negb (Z.eqb x other)) <$> at2 rows i j.
Proof.
  unfold at2, ne_rows. rewrite list_lookup_fmap.
  destruct (rows !! i) as [row|]; cbn; [|reflexivity].
  apply list_lookup_fmap.
Qed.

(** C10.  [dummy_inputs] always returns a dict whose keys are exactly
    ['attention_mask'], ['input_ids'] and ['decoder_input_ids'].  The
    entries for ['input_ids'] and ['decoder_input_ids'] are one and the
    same tensor object, holding the two fixed rows with [pad_token_id] in
    the last position; the entry for ['attention_mask'] is a different
    object of the same shape whose element at every position is the truth
    value of [input_ids != pad_token_id] there.  Tensors that existed
    before are untouched. *)
Theorem dummy_inputs_spec config st :
  exists ids mask st' d rows mrows,
    dummy_inputs config st = Ok (d, st') /\
    keys d = ["attention_mask"; "input_ids"; "decoder_input_ids"] /\
    NoDup (keys d) /\
    dict_get "input_ids" d = Some ids /\
    dict_get "decoder_input_ids" d = Some ids /\
    dict_get "attention_mask" d = Some mask /\
    mask <> ids /\
    rows = [[0; 6; 10; 4; 2]; [0; 8; 12; 2; pad_token_id config]] /\
    st' !! ids = Some (LongTensor rows) /\
    st' !! mask = Some (BoolTensor mrows) /\
    (forall i j,
       at2 mrows i j
       = (fun x => negb (Z.eqb x (pad_token_id config))) <$> at2 rows i j) /\
    (forall r t, st !! r = Some t -> st' !! r = Some t).
Proof.
  exists (List.length st). eexists _, _, _, _, _.
  split.
  { unfold dummy_inputs, torch_tensor, alloc, ne.
    unfold mbind, M_bind, mret, M_ret.
    rewrite (list_lookup_middle st [] _ (List.length st) eq_refl).
    reflexivity. }
  split; [reflexivity|].
  split; [repeat constructor; intros H; absent H|].
  do 3 (split; [reflexivity|]).
  split; [rewrite length_app; cbn [List.length]; lia|].
  split; [reflexivity|].
  split.
  { rewrite <- app_assoc. now apply list_lookup_middle. }
  split; [now apply list_lookup_middle|].
  split; [intros i j; apply ne_rows_at2|].
  intros r t H. rewrite <- app_assoc. now apply lookup_app_l_Some.
Qed.

Example dummy_inputs_run :
  dummy_inputs sample_config []
  = Ok ([("attention_mask", 1%nat); ("input_ids", 0%nat);
         ("decoder_input_ids", 0%nat)],
        [LongTensor [[0; 6; 10; 4; 2]; [0; 8; 12; 2; 1]];
         BoolTensor [[true; true; true; true; true];
                     [true; true; true; true; false]]]).
Proof. reflexivity. Qed.

(** ** The forward pass *)

Section ForwardProperties.

Context {Tensor : Type}.
Variable call_model :
  base_model -> model_args Tensor -> result (model_output Tensor).

Lemma resolve_return_dict_run config (a : forward_args Tensor) w :
  self_config w = Some config ->
  resolve_return_dict (return_dict a) w
  = Ok (resolved_return_dict config a, w).
Proof.
  intros Hc. unfold resolve_return_dict, resolved_return_dict.
  destruct (return_dict a); try reflexivity.
  unfold get_config, mbind, M_bind. now rewrite Hc.
Qed.

Lemma forward_run config m (a : forward_args Tensor) w :
  self_config w = Some config ->
  self_model w = Some m ->
  forward call_model a w
  = match call_model m (delegated_args a (resolved_return_dict config a)) with
    | Ok (ModelOutput fields) =>
        match fields !! "logits" with
        | Some v => Ok (v, w)
        | None => Raise (KeyError "logits")
        end
    | Ok (TupleOutput _) =>
        Raise (TypeError "tuple indices must be integers or slices, not str")
    | Raise e => Raise e
    end.
Proof.
  intros Hc Hm. unfold forward.
  erewrite bind_ok by (apply resolve_return_dict_run; exact Hc).
  unfold get_model, invoke, getitem, mbind, M_bind. rewrite Hm.
  destruct (call_model m _) as [[fields|items]|e]; try reflexivity.
  destruct (fields !! "logits"); reflexivity.
Qed.

(** C2, as amended.  On a constructed object, [forward] makes one call
    to the underlying model, passing [input_ids] positionally and
    [attention_mask], [token_type_ids], [position_ids], [head_mask],
    [inputs_embeds], [output_attentions], [output_hidden_states] and the
    resolved [return_dict] by keyword: every tensor input except
    [labels] is handed over.  [labels] is accepted and ignored: no
    keyword of that name is passed and the outcome does not depend on
    it.  The value returned is exactly [outputs['logits']], with [self]
    unchanged; an exception of the underlying model propagates. *)
Theorem forward_delegates_all_but_labels config m
    (a : forward_args Tensor) w :
  self_config w = Some config ->
  self_model w = Some m ->
  let call := delegated_args a (resolved_return_dict config a) in
  positional call = [input_ids a] /\
  (keywords call).*1
  = ["attention_mask"; "token_type_ids"; "position_ids"; "head_mask";
     "inputs_embeds"; "output_attentions"; "output_hidden_states";
     "return_dict"] /\
  dict_get "attention_mask" (keywords call) = Some (attention_mask a) /\
  dict_get "token_type_ids" (keywords call) = Some (token_type_ids a) /\
  dict_get "position_ids" (keywords call) = Some (position_ids a) /\
  dict_get "head_mask" (keywords call) = Some (head_mask a) /\
  dict_get "inputs_embeds" (keywords call) = Some (inputs_embeds a) /\
  Forall (fun v => reaches v call) (tensor_inputs_but_labels a) /\
  dict_get "labels" (keywords call) = None /\
  (forall l, forward call_model (with_labels l a) w = forward call_model a w) /\
  forward call_model a w
  = match call_model m call with
    | Ok (ModelOutput fields) =>
        match fields !! "logits" with
        | Some v => Ok (v, w)
        | None => Raise (KeyError "logits")
        end
    | Ok (TupleOutput _) =>
        Raise (TypeError "tuple indices must be integers or slices, not str")
    | Raise e => Raise e
    end.
Proof.
  intros Hc Hm call.
  do 7 (split; [reflexivity|]).
  split.
  { unfold tensor_inputs_but_labels, reaches. subst call. cbn.
    repeat constructor; (left; here) || (right; here). }
  split; [reflexivity|].
  split; [|now apply forward_run].
  intros l. rewrite !(forward_run config m) by assumption. reflexivity.
Qed.

End ForwardProperties.

Lemma forward_delegates_all_but_labels_witness :
  forward (constant_logits 3) labels_only
    (constructed sample_config XLMRobertaAdapterModel fresh)
  = Ok (PyTensor 3%nat, constructed sample_config XLMRobertaAdapterModel fresh)
  /\ dict_get "labels"
       (keywords (delegated_args labels_only
                    (resolved_return_dict sample_config labels_only))) = None.
Proof.
  destruct (forward_delegates_all_but_labels (constant_logits 3)
              sample_config _ labels_only
              (constructed sample_config XLMRobertaAdapterModel fresh)
              eq_refl eq_refl)
    as (_ & _ & _ & _ & _ & _ & _ & _ & Hl & _ & Hrun).
  split; [|exact Hl].
  rewrite Hrun. unfold constant_logits.
  now rewrite lookup_singleton_eq.
Defined.

(** C2, as stated, fails: a labels tensor given to [forward] is not among
    the arguments of the call to the underlying model. *)
Lemma forward_drops_labels :
  ~ delegates_every_tensor_input sample_config labels_only.
Proof.
  unfold delegates_every_tensor_input, tensor_inputs. intros H.
  do 6 (apply Forall_cons in H as [_ H]).
  apply Forall_cons in H as [[H|H] _]; cbn in H; absent H.
Qed.

(** ** The size of the logits *)

Lemma head_labels_init_history config :
  head_labels (init_history config)
  = if String.eqb (task_adapter_ckpt config) EmptyString
    then Some (num_labels config) else None.
Proof.
  unfold init_history, language_calls, task_calls, activation_calls.
  destruct (String.eqb (lang_adapter_ckpt config) EmptyString);
    destruct (String.eqb (task_adapter_ckpt config) EmptyString); reflexivity.
Qed.

Section LogitsSize.

Context {Tensor : Type}.
Variable call_model :
  base_model -> model_args Tensor -> result (model_output Tensor).
Variable size : Tensor -> list nat.

(** C6, as amended.  For a configuration with an empty
    [task_adapter_ckpt] (and a recognised model tag) the constructor
    adds the tagging head with [num_labels = config.num_labels], and
    [forward] returns the logits of the underlying model as they are;
    so, given that the library sizes the logits by the head that was
    added, every logits tensor returned by [forward] has last dimension
    [config.num_labels]. *)
Theorem forward_logits_last_dim config cls :
  logits_sized_by_head call_model size ->
  tag_class (model config) = Some cls ->
  task_adapter_ckpt config = EmptyString ->
  (forall w0, exists w m,
      init config w0 = Ok (tt, w) /\ self_model w = Some m /\
      add_tagging_head (ner_name config) (num_labels config) ∈ history m /\
      head_labels (history m) = Some (num_labels config))
  /\ logits_match_num_labels call_model size config.
Proof.
  intros Hlib Hcls Htask. split.
  - intros w0. eexists _, _. split; [apply (init_run _ _ _ Hcls)|].
    split; [reflexivity|]. cbn [history].
    rewrite head_labels_init_history, (eqb_empty_true _ Htask).
    split; [|reflexivity].
    unfold init_history, task_calls. rewrite (eqb_empty_true _ Htask).
    apply elem_of_app. right. apply elem_of_app. left. here.
  - intros w0 w a v w' Hinit Hfwd.
    rewrite (init_run _ _ _ Hcls) in Hinit. injection Hinit as <-.
    erewrite forward_run in Hfwd by reflexivity.
    destruct (call_model _ _) as [[fields|items]|e] eqn:Hcall;
      try discriminate.
    destruct (fields !! "logits") as [v'|] eqn:Hlog; [|discriminate].
    injection Hfwd as -> _.
    apply (Hlib _ _ _ _ _ Hcall Hlog).
    cbn [history]. now rewrite head_labels_init_history, (eqb_empty_true _ Htask).
Qed.

End LogitsSize.

Lemma shaped_library_sized_by_head ckpt_labels :
  logits_sized_by_head (shaped_library ckpt_labels) id.
Proof.
  intros m args fields v n Hcall Hlog Hhead.
  unfold shaped_library in Hcall. rewrite Hhead in Hcall.
  destruct (Z.ltb_spec n 0) as [|Hn]; [discriminate|].
  injection Hcall as <-. rewrite lookup_singleton_eq in Hlog.
  injection Hlog as <-. cbn. f_equal. lia.
Qed.

Lemma forward_logits_last_dim_witness :
  tag_class (model sample_config) = Some XLMRobertaAdapterModel /\
  task_adapter_ckpt sample_config = EmptyString /\
  logits_match_num_labels (shaped_library 7) id sample_config /\
  forward (shaped_library 7) no_args
    (constructed sample_config XLMRobertaAdapterModel fresh)
  = Ok (PyTensor [2; 5; 9]%nat,
        constructed sample_config XLMRobertaAdapterModel fresh).
Proof.
  split; [reflexivity|]. split; [reflexivity|].
  split.
  - exact (proj2 (forward_logits_last_dim (shaped_library 7) id sample_config
                    XLMRobertaAdapterModel (shaped_library_sized_by_head 7)
                    eq_refl eq_refl)).
  - erewrite forward_run by reflexivity.
    unfold shaped_library. cbn. now rewrite lookup_singleton_eq.
Defined.

(** C6, as stated, fails when the task adapter is loaded from a
    checkpoint: the constructor then adds no tagging head, and the logits
    have the size of the head stored in the checkpoint (7 labels here),
    whatever [config.num_labels] (9 here) says. *)
Lemma forward_logits_not_num_labels :
  (forall n k, forall w m,
     init sample_config_task_only fresh = Ok (tt, w) ->
     self_model w = Some m -> add_tagging_head n k ∉ history m) /\
  logits_sized_by_head (shaped_library 7) id /\
  ~ logits_match_num_labels (shaped_library 7) id sample_config_task_only.
Proof.
  split; [|split].
  - intros n k w m Hinit Hm.
    rewrite (init_run sample_config_task_only BertAdapterModel fresh eq_refl)
      in Hinit.
    injection Hinit as <-. injection Hm as <-. cbn. intros H. absent H.
  - apply shaped_library_sized_by_head.
  - intros H.
    specialize (H fresh (constructed sample_config_task_only BertAdapterModel fresh)
                  no_args (PyTensor [2; 5; 7]%nat)
                  (constructed sample_config_task_only BertAdapterModel fresh)).
    assert (Hd : last_dim id (PyTensor [2; 5; 7]%nat) = Some 9).
    { apply H.
      - now apply init_run.
      - erewrite forward_run by reflexivity.
        unfold shaped_library. cbn. now rewrite lookup_singleton_eq. }
    discriminate Hd.
Qed.

(** * Further properties of the constructor *)

(** X2.  The base model is built from the configuration when
    [pretrained_ck] is the empty string and with [from_pretrained] on that
    checkpoint otherwise, in both cases with the class the tag selects and
    before any adapter call. *)
Theorem init_base_origin config cls w :
  tag_class (model config) = Some cls ->
  exists w' m,
    init config w = Ok (tt, w') /\ self_model w' = Some m /\
    base_class m = cls /\
    (pretrained_ck config = EmptyString ->
       base_origin m = from_config config) /\
    (pretrained_ck config <> EmptyString ->
       base_origin m = from_pretrained (pretrained_ck config)).
Proof.
  intros Hcls. eexists _, _. split; [apply (init_run _ _ _ Hcls)|].
  split; [reflexivity|]. split; [reflexivity|].
  cbn [base_origin]. unfold init_origin.
  split; intros H.
  - now rewrite (eqb_empty_true _ H).
  - now rewrite (eqb_empty_false _ H).
Qed.

Lemma init_base_origin_witness :
  exists w' m,
    init sample_config_all_ckpts fresh = Ok (tt, w') /\
    self_model w' = Some m /\ base_class m = BertAdapterModel /\
    base_origin m = from_pretrained "bert-base-multilingual-cased".
Proof.
  destruct (init_base_origin sample_config_all_ckpts BertAdapterModel fresh
              eq_refl)
    as (w' & m & Hrun & Hm & Hc & _ & Ho).
  exists w', m. repeat split; try assumption.
  apply Ho. discriminate.
Defined.

(** X3.  The constructor starts from scratch: what it leaves in the
    attributes of [self] does not depend on what they held before, so
    running it again on an initialised object does not accumulate adapter
    calls; and it sets [num_labels] and [config] from its argument. *)
Theorem init_overwrites_self config w1 w2 a b :
  init config w1 = Ok (tt, a) ->
  init config w2 = Ok (tt, b) ->
  self_model a = self_model b /\
  self_num_labels a = Some (num_labels config) /\
  self_num_labels b = Some (num_labels config) /\
  self_config a = Some config /\
  self_config b = Some config.
Proof.
  intros Ha Hb. destruct (tag_class (model config)) as [cls|] eqn:Hcls.
  - rewrite (init_run _ _ _ Hcls) in Ha. rewrite (init_run _ _ _ Hcls) in Hb.
    injection Ha as <-. injection Hb as <-. cbn. auto.
  - rewrite (init_unbound _ _ Hcls) in Ha. discriminate.
Qed.

Lemma init_overwrites_self_witness :
  exists a b,
    init sample_config
      (constructed sample_config_task_only BertAdapterModel fresh) = Ok (tt, a)
    /\ init sample_config fresh = Ok (tt, b)
    /\ self_model a = self_model b.
Proof.
  eexists _, _.
  split; [apply (init_run sample_config XLMRobertaAdapterModel); reflexivity|].
  split; [apply (init_run sample_config XLMRobertaAdapterModel); reflexivity|].
  apply (init_overwrites_self sample_config
           (constructed sample_config_task_only BertAdapterModel fresh) fresh);
    apply (init_run sample_config XLMRobertaAdapterModel); reflexivity.
Defined.

(** X4.  The calls of the constructor come in a fixed order: between one
    and three set-up calls ([load_adapter], [add_adapter],
    [add_tagging_head]), then one [set_active_adapters], then
    [train_adapter] on the task adapter as the very last call. *)
Theorem init_call_order config cls w :
  tag_class (model config) = Some cls ->
  exists w' m setup active,
    init config w = Ok (tt, w') /\ self_model w' = Some m /\
    history m
    = (setup ++ [set_active_adapters active;
                 train_adapter [ner_name config]])%list /\
    Forall is_setup setup /\
    (1 <= List.length setup <= 3)%nat.
Proof.
  intros Hcls. exists (constructed config cls w). eexists.
  exists (language_calls config ++ task_calls config)%list.
  exists (if String.eqb (lang_adapter_ckpt config) EmptyString
          then [ner_name config] else [lang config; ner_name config]).
  split; [apply (init_run _ _ _ Hcls)|]. split; [reflexivity|].
  cbn [history]. history_cases config; cbn;
    (split; [reflexivity|]); (split; [repeat constructor | lia]).
Qed.

Lemma init_call_order_witness :
  exists w' m setup active,
    init sample_config fresh = Ok (tt, w') /\ self_model w' = Some m /\
    history m
    = (setup ++ [set_active_adapters active; train_adapter ["am_ner"]])%list /\
    Forall is_setup setup.
Proof.
  destruct (init_call_order sample_config XLMRobertaAdapterModel fresh eq_refl)
    as (w' & m & setup & active & Hrun & Hm & Hh & Hs & _).
  exists w', m, setup, active. repeat split; assumption.
Defined.

(** X5.  The constructor never refers to an adapter it has not set up:
    every name given to [add_tagging_head], [set_active_adapters] or
    [train_adapter] was introduced by an earlier [load_adapter] or
    [add_adapter] call on the same model. *)
Theorem init_adapters_introduced_before_use config cls w :
  tag_class (model config) = Some cls ->
  exists w' m,
    init config w = Ok (tt, w') /\ self_model w' = Some m /\
    scoped [] (history m).
Proof.
  intros Hcls. eexists _, _. split; [apply (init_run _ _ _ Hcls)|].
  split; [reflexivity|]. cbn [history].
  history_cases config; cbn; repeat split; repeat constructor; here.
Qed.

Lemma init_adapters_introduced_before_use_witness :
  exists w' m,
    init sample_config fresh = Ok (tt, w') /\ self_model w' = Some m /\
    scoped [] (history m).
Proof.
  exact (init_adapters_introduced_before_use sample_config
           XLMRobertaAdapterModel fresh eq_refl).
Defined.

(** X6.  The adapters requested active are pairwise distinct and the task
    adapter is always the last of them, after the language adapter when
    there is one. *)
Theorem init_active_adapters_distinct config cls w :
  tag_class (model config) = Some cls ->
  exists w' m active,
    init config w = Ok (tt, w') /\ self_model w' = Some m /\
    active_adapters (history m) = Some active /\
    NoDup active /\
    last active = Some (ner_name config).
Proof.
  intros Hcls. exists (constructed config cls w). eexists.
  exists (if String.eqb (lang_adapter_ckpt config) EmptyString
          then [ner_name config] else [lang config; ner_name config]).
  split; [apply (init_run _ _ _ Hcls)|]. split; [reflexivity|].
  cbn [history]. unfold active_adapters.
  rewrite active_requests_init_history.
  destruct (String.eqb (lang_adapter_ckpt config) EmptyString); cbn;
    (split; [reflexivity|]); (split; [|reflexivity]).
  - repeat constructor. intros H. absent H.
  - apply NoDup_cons. split; [|repeat constructor; intros H; absent H].
    intros H. apply list_elem_of_singleton in H.
    now apply (ner_name_neq_lang config).
Qed.

Lemma init_active_adapters_distinct_witness :
  exists w' m active,
    init sample_config fresh = Ok (tt, w') /\ self_model w' = Some m /\
    active_adapters (history m) = Some active /\ NoDup active.
Proof.
  destruct (init_active_adapters_distinct sample_config
              XLMRobertaAdapterModel fresh eq_refl)
    as (w' & m & active & Hrun & Hm & Ha & Hd & _).
  exists w', m, active. repeat split; assumption.
Defined.

(** X7.  Every adapter the constructor loads or adds is set up with
    [leave_out = [11]], and there is always at least one such adapter. *)
Theorem init_leaves_out_layer_11 config cls w :
  tag_class (model config) = Some cls ->
  exists w' m,
    init config w = Ok (tt, w') /\ self_model w' = Some m /\
    Forall (fun lo => lo = [11]) (leave_outs (history m)) /\
    leave_outs (history m) <> [].
Proof.
  intros Hcls. eexists _, _. split; [apply (init_run _ _ _ Hcls)|].
  split; [reflexivity|]. cbn [history].
  history_cases config; cbn; (split; [repeat constructor | discriminate]).
Qed.

Lemma init_leaves_out_layer_11_witness :
  exists w' m,
    init sample_config_all_ckpts fresh = Ok (tt, w') /\
    self_model w' = Some m /\
    leave_outs (history m) = [[11]; [11]].
Proof.
  destruct (init_leaves_out_layer_11 sample_config_all_ckpts BertAdapterModel
              fresh eq_refl)
    as (w' & m & Hrun & Hm & _).
  exists w', m. split; [exact Hrun|]. split; [exact Hm|].
  rewrite (init_run sample_config_all_ckpts BertAdapterModel fresh eq_refl)
    in Hrun.
  injection Hrun as <-. injection Hm as <-. reflexivity.
Defined.

(** X8.  When both a base checkpoint and a task-adapter checkpoint are
    given, [config.num_labels] has no effect on the underlying model: two
    configurations that differ only in the label count lead to the same
    base model and the same calls on it. *)
Theorem init_ignores_num_labels_with_checkpoints config cls n w :
  tag_class (model config) = Some cls ->
  pretrained_ck config <> EmptyString ->
  task_adapter_ckpt config <> EmptyString ->
  exists w1 w2,
    init config w = Ok (tt, w1) /\
    init (with_num_labels n config) w = Ok (tt, w2) /\
    self_model w1 = self_model w2.
Proof.
  intros Hcls Hp Ht. eexists _, _.
  split; [apply (init_run _ _ _ Hcls)|].
  split; [apply (init_run (with_num_labels n config) cls w Hcls)|].
  cbn [self_model constructed]. unfold init_origin, init_history,
    language_calls, task_calls, activation_calls, ner_name. cbn.
  rewrite (eqb_empty_false _ Hp), (eqb_empty_false _ Ht). reflexivity.
Qed.

Lemma init_ignores_num_labels_with_checkpoints_witness :
  exists w1 w2,
    init sample_config_all_ckpts fresh = Ok (tt, w1) /\
    init (with_num_labels 3 sample_config_all_ckpts) fresh = Ok (tt, w2) /\
    self_model w1 = self_model w2.
Proof.
  apply (init_ignores_num_labels_with_checkpoints sample_config_all_ckpts
           BertAdapterModel 3 fresh eq_refl); discriminate.
Defined.

(** * Further properties of saving *)

Lemma append_inj_r (s a b : string) : s +:+ a = s +:+ b -> a = b.
Proof.
  induction s as [|c s IH]; simpl; intros H; [exact H|].
  injection H as H. now apply IH.
Qed.

Lemma append_inj_l (a b t : string) : a +:+ t = b +:+ t -> a = b.
Proof.
  revert b. induction a as [|c a IH]; intros [|d b] H.
  - reflexivity.
  - apply (f_equal String.length) in H.
    rewrite !append_length in H. cbn in H. lia.
  - apply (f_equal String.length) in H.
    rewrite !append_length in H. cbn in H. lia.
  - injection H as -> H. f_equal. now apply IH.
Qed.

(** X9.  Distinct languages never share a task-adapter name, and under
    one [path] they never share a save directory: the name
    [f'{lang}_ner'] and the directory [f'{path}/{lang}'] determine
    [lang]. *)
Theorem adapter_name_and_directory_determine_lang c1 c2 :
  (ner_name c1 = ner_name c2 <-> lang c1 = lang c2)
  /\ (forall path w1 w2 d1 d2,
        self_config w1 = Some c1 -> self_config w2 = Some c2 ->
        lang_dir path w1 = Ok (d1, w1) -> lang_dir path w2 = Ok (d2, w2) ->
        (d1 = d2 <-> lang c1 = lang c2)).
Proof.
  split.
  - unfold ner_name. split; [apply append_inj_l | now intros ->].
  - intros path w1 w2 d1 d2 H1 H2 R1 R2.
    rewrite (lang_dir_run _ _ _ H1) in R1. injection R1 as <-.
    rewrite (lang_dir_run _ _ _ H2) in R2. injection R2 as <-.
    split; [|now intros ->].
    intros H. apply append_inj_r in H. now apply (append_inj_r "/") in H.
Qed.

Lemma save_pretrained_run path config m w :
  self_config w = Some config ->
  self_model w = Some m ->
  save_pretrained path w
  = Ok (tt,
        {| fs := if bool_decide (path +:+ "/" +:+ lang config ∈ fs w)
                 then fs w else {[path +:+ "/" +:+ lang config]} ∪ fs w;
           self_num_labels := self_num_labels w;
           self_model :=
             Some (record_call
                     (save_adapter (path +:+ "/" +:+ lang config)
                        (ner_name config) true)
                     (record_call
                        (config_save_pretrained (path +:+ "/" +:+ lang config))
                        m));
           self_config := self_config w |}).
Proof.
  intros Hc Hm. unfold save_pretrained.
  erewrite bind_ok by (apply lang_dir_run; exact Hc).
  unfold os_path_exists at 1, mbind at 1, M_bind at 1.
  destruct (bool_decide (path +:+ "/" +:+ lang config ∈ fs w)) eqn:Hd;
    cbn [negb].
  - unfold mbind at 1, M_bind at 1, mret at 1, M_ret at 1.
    erewrite bind_ok by (apply lang_dir_run; exact Hc).
    erewrite bind_ok by (apply model_do_run; exact Hm).
    erewrite bind_ok by (apply lang_dir_run; exact Hc).
    erewrite bind_ok by (apply self_ner_name_run; exact Hc).
    erewrite model_do_run by reflexivity. reflexivity.
  - unfold mbind at 1, M_bind at 1.
    erewrite bind_ok by (apply lang_dir_run; exact Hc).
    unfold os_makedirs. rewrite Hd.
    erewrite bind_ok by (apply lang_dir_run; exact Hc).
    erewrite bind_ok by (apply model_do_run; exact Hm).
    erewrite bind_ok by (apply lang_dir_run; exact Hc).
    erewrite bind_ok by (apply self_ner_name_run; exact Hc).
    erewrite model_do_run by reflexivity. reflexivity.
Qed.

(** X11.  When a constructed model is saved, what is saved is the adapter
    that was trained: the last call is [save_adapter] on
    [f'{config.lang}_ner'] with its head, under [f'{path}/{config.lang}'];
    that name is the one in the single [train_adapter] request and an
    adapter the constructor introduced.  Saving adds no activation request
    and no training request. *)
Theorem init_then_save_pretrained config path w w1 w2 :
  init config w = Ok (tt, w1) ->
  save_pretrained path w1 = Ok (tt, w2) ->
  exists m1 m2,
    self_model w1 = Some m1 /\ self_model w2 = Some m2 /\
    last (history m2)
    = Some (save_adapter (path +:+ "/" +:+ lang config) (ner_name config) true) /\
    train_requests (history m2) = [[ner_name config]] /\
    active_requests (history m2) = active_requests (history m1) /\
    scoped [] (history m2).
Proof.
  intros Hinit Hsave.
  destruct (tag_class (model config)) as [cls|] eqn:Hcls;
    [|rewrite (init_unbound _ _ Hcls) in Hinit; discriminate].
  rewrite (init_run _ _ _ Hcls) in Hinit. injection Hinit as <-.
  erewrite (save_pretrained_run path config) in Hsave by reflexivity.
  injection Hsave as <-.
  eexists _, _. split; [reflexivity|]. split; [reflexivity|].
  unfold record_call. cbn [history].
  split; [apply last_snoc|].
  split.
  { rewrite !train_requests_app, train_requests_init_history. reflexivity. }
  split.
  { rewrite !active_requests_app. cbn. now rewrite !app_nil_r. }
  history_cases config; cbn; repeat split; repeat constructor; here.
Qed.

Lemma init_then_save_pretrained_witness :
  exists w1 w2 m2,
    init sample_config fresh = Ok (tt, w1) /\
    save_pretrained "out" w1 = Ok (tt, w2) /\ self_model w2 = Some m2 /\
    last (history m2) = Some (save_adapter "out/am" "am_ner" true).
Proof.
  pose proof (init_run sample_config XLMRobertaAdapterModel fresh eq_refl)
    as Hi.
  pose proof (save_pretrained_run "out" sample_config _
                (constructed sample_config XLMRobertaAdapterModel fresh)
                eq_refl eq_refl) as Hs.
  destruct (init_then_save_pretrained sample_config "out" fresh _ _ Hi Hs)
    as (m1 & m2 & _ & Hm2 & Hl & _).
  eexists _, _, m2. split; [exact Hi|]. split; [exact Hs|].
  split; [exact Hm2 | exact Hl].
Defined.

(** * Further properties of the forward pass *)

Section ForwardMore.

Context {Tensor : Type}.
Variable call_model :
  base_model -> model_args Tensor -> result (model_output Tensor).

(** X13.  [forward] never modifies [self]: whenever it returns, the
    attributes of the object and the file system are what they were, and
    no adapter call has been added to the underlying model. *)
Theorem forward_leaves_self_unchanged (a : forward_args Tensor) w v w' :
  forward call_model a w = Ok (v, w') -> w' = w.
Proof.
  unfold forward, resolve_return_dict, get_config, get_model, invoke, getitem.
  unfold mbind, M_bind, mret, M_ret, raise.
  destruct (return_dict a); destruct (self_config w);
    destruct (self_model w); try discriminate;
    destruct (call_model _ _) as [[fields|items]|e]; try discriminate;
    destruct (fields !! "logits"); try discriminate;
    intros H; now injection H as _ <-.
Qed.

(** X14.  Leaving [return_dict] out is the same as passing the
    configuration's [use_return_dict] explicitly. *)
Theorem forward_default_return_dict config (a : forward_args Tensor) w :
  self_config w = Some config ->
  forward call_model (with_return_dict PyNone a) w
  = forward call_model
      (with_return_dict (PyBool (use_return_dict config)) a) w.
Proof.
  intros Hc. unfold forward.
  erewrite !bind_ok by (apply resolve_return_dict_run; exact Hc).
  reflexivity.
Qed.

(** X15.  What [forward] needs of [self].  With [return_dict] left out
    and no [config] on the object it raises [AttributeError] on [config]
    before anything else.  With an explicit [return_dict] the
    configuration is never read: the call goes through on an object
    without [config].  Without [model] it raises [AttributeError] on
    [model], and the underlying model is not called. *)
Theorem forward_attribute_errors (a : forward_args Tensor) w :
  (return_dict a = PyNone -> self_config w = None ->
     forward call_model a w = Raise (AttributeError "config")) /\
  (return_dict a <> PyNone -> forall m, self_model w = Some m ->
     forward call_model a w
     = match call_model m (delegated_args a (return_dict a)) with
       | Ok out => getitem out "logits" w
       | Raise e => Raise e
       end) /\
  (return_dict a <> PyNone \/ self_config w <> None ->
   self_model w = None ->
     forward call_model a w = Raise (AttributeError "model")).
Proof.
  unfold forward, resolve_return_dict, get_config, get_model, invoke.
  unfold mbind, M_bind, mret, M_ret, raise.
  split; [|split].
  - intros -> ->. reflexivity.
  - intros Hrd m Hm.
    destruct (return_dict a); [congruence| |]; rewrite Hm;
      destruct (call_model _ _); reflexivity.
  - intros Hor Hm.
    destruct (return_dict a); try now rewrite Hm.
    destruct (self_config w); [now rewrite Hm|].
    destruct Hor; congruence.
Qed.

End ForwardMore.

Lemma forward_leaves_self_unchanged_witness :
  exists v w',
    forward (constant_logits 3) labels_only
      (constructed sample_config XLMRobertaAdapterModel fresh) = Ok (v, w')
    /\ w' = constructed sample_config XLMRobertaAdapterModel fresh.
Proof.
  assert (H : forward (constant_logits 3) labels_only
                (constructed sample_config XLMRobertaAdapterModel fresh)
              = Ok (PyTensor 3%nat,
                    constructed sample_config XLMRobertaAdapterModel fresh)).
  { erewrite forward_run by reflexivity. unfold constant_logits.
    now rewrite lookup_singleton_eq. }
  eexists _, _. split; [exact H|].
  exact (forward_leaves_self_unchanged (constant_logits 3) labels_only _ _ _ H).
Defined.

Lemma forward_default_return_dict_witness :
  forward (constant_logits 3) (with_return_dict PyNone no_args)
    (constructed sample_config XLMRobertaAdapterModel fresh)
  = forward (constant_logits 3) (with_return_dict (PyBool true) no_args)
      (constructed sample_config XLMRobertaAdapterModel fresh).
Proof.
  exact (forward_default_return_dict (constant_logits 3) sample_config no_args
           (constructed sample_config XLMRobertaAdapterModel fresh) eq_refl).
Defined.

(** * Further properties of the dummy inputs *)

Lemma dummy_inputs_run_general config st :
  dummy_inputs config st
  = Ok ([("attention_mask", S (List.length st));
         ("input_ids", List.length st);
         ("decoder_input_ids", List.length st)],
        (st ++ [LongTensor [[0; 6; 10; 4; 2];
                            [0; 8; 12; 2; pad_token_id config]];
                BoolTensor
                  (ne_rows [[0; 6; 10; 4; 2];
                            [0; 8; 12; 2; pad_token_id config]]
                     (pad_token_id config))])%list).
Proof.
  unfold dummy_inputs, torch_tensor, alloc, ne.
  unfold mbind, M_bind, mret, M_ret.
  rewrite (list_lookup_middle st [] _ (List.length st) eq_refl).
  unfold alloc.
  rewrite length_app, <- app_assoc. cbn [List.length app].
  replace (List.length st + 1)%nat with (S (List.length st)) by lia.
  reflexivity.
Qed.

(** X16.  In the attention mask of the dummy batch the padded position,
    the last one of the second row, is masked out for every
    [pad_token_id].  When [pad_token_id] is none of the token ids used in
    the batch, every other position is attended to; when it is one of
    them, some real token is masked out as well. *)
Theorem dummy_inputs_mask config st :
  exists d st' mask mrows,
    dummy_inputs config st = Ok (d, st') /\
    dict_get "attention_mask" d = Some mask /\
    st' !! mask = Some (BoolTensor mrows) /\
    shape mrows = [5; 5]%nat /\
    at2 mrows 1 4 = Some false /\
    (pad_token_id config ∉ dummy_token_ids ->
       mrows = [[true; true; true; true; true];
                [true; true; true; true; false]]) /\
    (pad_token_id config ∈ dummy_token_ids ->
       exists i j, (i, j) <> (1, 4)%nat /\ at2 mrows i j = Some false).
Proof.
  eexists _, _, _, _.
  split; [apply dummy_inputs_run_general|].
  split; [reflexivity|].
  split.
  { etransitivity; [apply lookup_app_r; lia|].
    replace (S (List.length st) - List.length st)%nat with 1%nat by lia.
    reflexivity. }
  split; [reflexivity|].
  split; [cbn -[Z.eqb]; now rewrite Z.eqb_refl|].
  unfold dummy_token_ids, ne_rows. cbn -[Z.eqb]. rewrite Z.eqb_refl.
  split.
  - intros Hn.
    repeat match goal with
           | |- context [Z.eqb ?x (pad_token_id config)] =>
               destruct (Z.eqb_spec x (pad_token_id config)) as [E|_];
               [exfalso; apply Hn; rewrite <- E; here|]
           end.
    reflexivity.
  - intros Hin.
    repeat (apply elem_of_cons in Hin as [Hin|Hin];
            [rewrite Hin; clear Hin|]); [..|now apply elem_of_nil in Hin].
    + exists 0%nat, 0%nat. split; [discriminate|reflexivity].
    + exists 0%nat, 1%nat. split; [discriminate|reflexivity].
    + exists 0%nat, 2%nat. split; [discriminate|reflexivity].
    + exists 0%nat, 3%nat. split; [discriminate|reflexivity].
    + exists 0%nat, 4%nat. split; [discriminate|reflexivity].
    + exists 1%nat, 1%nat. split; [discriminate|reflexivity].
    + exists 1%nat, 2%nat. split; [discriminate|reflexivity].
Qed.

(** X17.  [dummy_inputs] builds new tensors each time it is read: two
    successive reads add four tensors to the store, the tensors of the
    second result are all different objects from those of the first, and
    the tensors of the first result are still what they were. *)
Theorem dummy_inputs_fresh_each_time config st :
  exists d1 st1 d2 st2,
    dummy_inputs config st = Ok (d1, st1) /\
    dummy_inputs config st1 = Ok (d2, st2) /\
    List.length st2 = (List.length st + 4)%nat /\
    (forall r1 r2, r1 ∈ d1.*2 -> r2 ∈ d2.*2 -> r1 <> r2) /\
    (forall r, r ∈ d1.*2 -> st2 !! r = st1 !! r /\ is_Some (st1 !! r)).
Proof.
  eexists _, _, _, _.
  split; [apply dummy_inputs_run_general|].
  split; [apply dummy_inputs_run_general|].
  rewrite !length_app. cbn [List.length fmap list_fmap snd].
  split; [lia|]. split.
  - intros r1 r2 H1 H2.
    repeat (apply elem_of_cons in H1 as [->|H1]);
      try (now apply elem_of_nil in H1);
      repeat (apply elem_of_cons in H2 as [->|H2]);
      try (now apply elem_of_nil in H2); lia.
  - intros r Hr.
    assert (Hlt : (r <= S (List.length st))%nat).
    { repeat (apply elem_of_cons in Hr as [->|Hr]);
        try (now apply elem_of_nil in Hr); lia. }
    split; [apply lookup_app_l | apply lookup_lt_is_Some];
      rewrite length_app; cbn [List.length]; lia.
Qed.

(** * Properties of [_init_weights] *)

Section InitWeightsProperties.

Context {F Rng : Type}.
Variable zero one : F.
Variable normal : F -> F -> Rng -> F * Rng.

Lemma after_draws_add mean std n k (g : Rng) :
  after_draws normal mean std (n + k) g
  = after_draws normal mean std k (after_draws normal mean std n g).
Proof. revert g. induction n as [|n IH]; intros g; cbn; [reflexivity | apply IH]. Qed.

Lemma normal_row_run mean std (row : list F) g :
  exists row',
    normal_row normal mean std row g
    = Ok (row', after_draws normal mean std (List.length row) g)
    /\ List.length row' = List.length row.
Proof.
  revert g. induction row as [|x row IH]; intros g.
  - exists []. split; reflexivity.
  - cbn [normal_row]. unfold mbind at 1, M_bind at 1, draw.
    destruct (normal mean std g) as [y g1] eqn:Hd.
    destruct (IH g1) as (row' & Hrun & Hlen).
    exists (y :: row'). erewrite bind_ok by exact Hrun.
    cbn. rewrite Hd. cbn. split; [reflexivity | now f_equal].
Qed.

Lemma normal__run mean std (t : list (list F)) g :
  exists t',
    normal_ normal mean std t g
    = Ok (t', after_draws normal mean std (numel t) g)
    /\ shape t' = shape t.
Proof.
  revert g. induction t as [|row t IH]; intros g.
  - exists []. split; reflexivity.
  - cbn [normal_].
    destruct (normal_row_run mean std row g) as (row' & Hrow & Hlen).
    destruct (IH (after_draws normal mean std (List.length row) g))
      as (t' & Hrun & Hshape).
    exists (row' :: t').
    erewrite bind_ok by exact Hrow. erewrite bind_ok by exact Hrun.
    unfold numel, shape in *. cbn. rewrite after_draws_add.
    split; [reflexivity | now f_equal].
Qed.

Lemma fill__all v (row : list F) : Forall (eq v) (fill_ v row).
Proof. unfold fill_. apply Forall_fmap. now apply Forall_true. Qed.

Lemma fill__length v (row : list F) :
  List.length (fill_ v row) = List.length row.
Proof. apply length_fmap. Qed.

Lemma fill__fill_ v v' (row : list F) : fill_ v (fill_ v' row) = fill_ v row.
Proof. unfold fill_. induction row; cbn; [reflexivity | now f_equal]. Qed.

Lemma shape_alter_zero_ k (t : list (list F)) :
  shape (alter (zero_ zero) k t) = shape t.
Proof.
  unfold shape. revert k. induction t as [|row t IH]; intros [|k]; cbn;
    try reflexivity.
  - f_equal. apply fill__length.
  - f_equal. apply IH.
Qed.

(** X18.  Whenever [_init_weights] returns on a [Linear] module, the
    result is again a [Linear] module whose weight has kept its shape and
    been refilled with one draw per element, of mean [0.0] and standard
    deviation [initializer_range]; a bias, when the module has one, is all
    zeros of the same length and has cost no draw; a module without bias
    stays without. *)
Theorem init_weights_linear std weight bias g m' g' :
  _init_weights zero one normal std (Linear weight bias) g = Ok (m', g') ->
  exists weight',
    m' = Linear weight' (zero_ zero <$> bias) /\
    g' = after_draws normal zero std (numel weight) g /\
    normal_ normal zero std weight g = Ok (weight', g') /\
    shape weight' = shape weight /\
    (forall b, bias = Some b ->
       Forall (eq zero) (zero_ zero b) /\
       List.length (zero_ zero b) = List.length b).
Proof.
  intros H.
  destruct (normal__run zero std weight g) as (weight' & Hrun & Hshape).
  cbn [_init_weights] in H. erewrite bind_ok in H by exact Hrun.
  exists weight'.
  assert (Hm : m' = Linear weight' (zero_ zero <$> bias)
               /\ g' = after_draws normal zero std (numel weight) g).
  { destruct bias; injection H as <- <-; split; reflexivity. }
  destruct Hm as [-> ->].
  split; [reflexivity|]. split; [reflexivity|].
  split; [exact Hrun|]. split; [exact Hshape|].
  intros b _. split; [apply fill__all | apply fill__length].
Qed.

(** X19.  On an [Embedding] whose [padding_idx] denotes row [k], the
    weight keeps its shape, row [k] ends up all zeros, every other row
    holds what was drawn for it, and [padding_idx] itself is unchanged.
    The draws are the same as for a module without [padding_idx]. *)
Theorem init_weights_embedding_padding std weight i k g :
  position (List.length weight) i = Some k ->
  exists sampled weight' row,
    normal_ normal zero std weight g
    = Ok (sampled, after_draws normal zero std (numel weight) g) /\
    _init_weights zero one normal std (Embedding weight None) g
    = Ok (Embedding sampled None,
          after_draws normal zero std (numel weight) g) /\
    _init_weights zero one normal std (Embedding weight (Some i)) g
    = Ok (Embedding weight' (Some i),
          after_draws normal zero std (numel weight) g) /\
    shape weight' = shape weight /\
    weight' !! k = Some row /\ Forall (eq zero) row /\
    (forall j, j <> k -> weight' !! j = sampled !! j).
Proof.
  intros Hpos.
  destruct (normal__run zero std weight g) as (sampled & Hrun & Hshape).
  assert (Hlen : List.length sampled = List.length weight).
  { apply (f_equal (@List.length nat)) in Hshape.
    unfold shape in Hshape. now rewrite !length_fmap in Hshape. }
  assert (Hk : (k < List.length sampled)%nat).
  { rewrite Hlen. unfold position in Hpos.
    destruct (Z.leb_spec 0 i).
    - destruct (Z.ltb_spec i (Z.of_nat (List.length weight)));
        [|discriminate]. injection Hpos as <-. lia.
    - destruct (Z.leb_spec (- Z.of_nat (List.length weight)) i);
        [|discriminate]. injection Hpos as <-. lia. }
  destruct (lookup_lt_is_Some_2 sampled k Hk) as [row0 Hrow0].
  exists sampled, (alter (zero_ zero) k sampled), (zero_ zero row0).
  split; [exact Hrun|]. split.
  { cbn [_init_weights]. erewrite bind_ok by exact Hrun. reflexivity. }
  split.
  { cbn [_init_weights]. erewrite bind_ok by exact Hrun.
    unfold zero_row. rewrite Hlen, Hpos. reflexivity. }
  split; [now rewrite shape_alter_zero_|].
  split; [now rewrite list_lookup_alter_eq, Hrow0|].
  split; [apply fill__all|].
  intros j Hj. now apply list_lookup_alter_ne.
Qed.

(** How [padding_idx] is read.  An index from [0] up to the number
    of rows denotes that row; a negative index down to minus the number
    of rows counts from the end; any other index makes [_init_weights]
    fail with the library's index error. *)
Theorem init_weights_embedding_index std weight i g :
  (0 <= i < Z.of_nat (List.length weight) ->
     position (List.length weight) i = Some (Z.to_nat i)) /\
  (- Z.of_nat (List.length weight) <= i < 0 ->
     position (List.length weight) i
     = Some (Z.to_nat (Z.of_nat (List.length weight) + i))) /\
  (i < - Z.of_nat (List.length weight) \/ Z.of_nat (List.length weight) <= i ->
     _init_weights zero one normal std (Embedding weight (Some i)) g
     = Raise (LibraryError "IndexError: index out of range")).
Proof.
  unfold position. split; [|split].
  - intros [H0 H1].
    destruct (Z.leb_spec 0 i); [|lia].
    destruct (Z.ltb_spec i (Z.of_nat (List.length weight))); [reflexivity|lia].
  - intros [H0 H1].
    destruct (Z.leb_spec 0 i); [lia|].
    destruct (Z.leb_spec (- Z.of_nat (List.length weight)) i);
      [reflexivity|lia].
  - intros Hout.
    destruct (normal__run zero std weight g) as (sampled & Hrun & Hshape).
    assert (Hlen : List.length sampled = List.length weight).
    { apply (f_equal (@List.length nat)) in Hshape.
      unfold shape in Hshape. now rewrite !length_fmap in Hshape. }
    cbn [_init_weights]. erewrite bind_ok by exact Hrun.
    unfold zero_row, position. rewrite Hlen.
    destruct (Z.leb_spec 0 i).
    + destruct (Z.ltb_spec i (Z.of_nat (List.length weight)));
        [lia|reflexivity].
    + destruct (Z.leb_spec (- Z.of_nat (List.length weight)) i);
        [lia|reflexivity].
Qed.

(** X20.  On a [LayerNorm] with weight and bias the result is the bias
    all zeros and the weight all ones, each of its former length; no
    random number is drawn, and applying [_init_weights] again changes
    nothing. *)
Theorem init_weights_layer_norm std (w b : list F) g :
  exists w' b',
    _init_weights zero one normal std (LayerNorm (Some w) (Some b)) g
    = Ok (LayerNorm (Some w') (Some b'), g) /\
    Forall (eq one) w' /\ List.length w' = List.length w /\
    Forall (eq zero) b' /\ List.length b' = List.length b /\
    _init_weights zero one normal std (LayerNorm (Some w') (Some b')) g
    = Ok (LayerNorm (Some w') (Some b'), g).
Proof.
  exists (fill_ one w), (zero_ zero b).
  split; [reflexivity|].
  split; [apply fill__all|]. split; [apply fill__length|].
  split; [apply fill__all|]. split; [apply fill__length|].
  unfold _init_weights, data, mbind, M_bind, mret, M_ret, zero_.
  now rewrite !fill__fill_.
Qed.

(** X21.  What [_init_weights] does not handle.  A [LayerNorm] that lacks
    its bias or its weight makes it fail with [AttributeError], unlike a
    [Linear] without bias, which is guarded.  A module of any other kind
    is returned as it is, without drawing random numbers. *)
Theorem init_weights_unhandled std g :
  (forall w,
     _init_weights zero one normal std (LayerNorm w None) g
     = Raise (AttributeError "data")) /\
  (forall b,
     _init_weights zero one normal std (LayerNorm None (Some b)) g
     = Raise (AttributeError "data")) /\
  (forall weight, exists weight' g',
     _init_weights zero one normal std (Linear weight None) g
     = Ok (Linear weight' None, g')) /\
  (forall params,
     _init_weights zero one normal std (OtherModule params) g
     = Ok (OtherModule params, g)).
Proof.
  split; [reflexivity|]. split; [reflexivity|]. split; [|reflexivity].
  intros weight.
  destruct (normal__run zero std weight g) as (weight' & Hrun & _).
  eexists weight', _. cbn [_init_weights].
  erewrite bind_ok by exact Hrun. reflexivity.
Qed.

End InitWeightsProperties.

Lemma init_weights_linear_witness :
  exists weight',
    _init_weights 0 1 counter_normal 2 (Linear [[7; 7]; [7; 7]] (Some [5; 5]))
      10%nat
    = Ok (Linear weight' (Some [0; 0]), 14%nat)
    /\ shape weight' = [2; 2]%nat.
Proof.
  destruct (init_weights_linear 0 1 counter_normal 2 [[7; 7]; [7; 7]]
              (Some [5; 5]) 10%nat _ _ eq_refl)
    as (weight' & Hm & _ & Hrun & Hshape & _).
  exists weight'. split; [|exact Hshape].
  cbn in Hrun. injection Hrun as <-. reflexivity.
Defined.

Example init_weights_embedding_run :
  _init_weights 0 1 counter_normal 2
    (Embedding [[7; 7]; [7; 7]; [7; 7]] (Some (-1))) 10%nat
  = Ok (Embedding [[10; 11]; [12; 13]; [0; 0]] (Some (-1)), 16%nat).
Proof. reflexivity. Qed.

Lemma init_weights_embedding_padding_witness :
  exists weight' row,
    _init_weights 0 1 counter_normal 2
      (Embedding [[7; 7]; [7; 7]; [7; 7]] (Some (-1))) 10%nat
    = Ok (Embedding weight' (Some (-1)), 16%nat) /\
    weight' !! 2%nat = Some row /\ Forall (eq 0) row.
Proof.
  destruct (init_weights_embedding_padding 0 1 counter_normal 2
              [[7; 7]; [7; 7]; [7; 7]] (-1) 2%nat 10%nat eq_refl)
    as (sampled & weight' & row & _ & _ & Hrun & _ & Hrow & Hzero & _).
  exists weight', row. repeat split; assumption.
Defined.
